(** * OneDiffusion: configuration layer and backend probe

    A shallow embedding of
      - [src/sdserver/_configuration.py]  (environment keys, settings
        validation, [SDConfig] construction, lookup, dump and structure), and
      - [src/onediffusion/utils/import_utils.py]  (the backend probe and
        [require_backends]),
    followed by the properties established about them.

    Conventions.  Python [str] is modelled by [string] restricted to ASCII,
    so that [str.upper] and [str.lower] act on the letters a-z / A-Z only.
    A Python [dict] with string keys is an insertion-ordered association
    list with unique keys.  A Python call that may raise returns a
    [Result]; the exception classes the code raises are the constructors of
    [Exn]. *)

From Stdlib Require Import ZArith Bool Ascii String List Lia.
From stdpp Require Import base decidable option list strings gmap.
Import ListNotations.

Set Warnings "-register-all".

Open Scope string_scope.
Open Scope list_scope.

(** ** Python strings *)

Module PyStr.

Definition is_lower (c : ascii) : bool :=
  let n := nat_of_ascii c in Nat.leb 97 n && Nat.leb n 122.

Definition is_upper (c : ascii) : bool :=
  let n := nat_of_ascii c in Nat.leb 65 n && Nat.leb n 90.

Definition is_digit (c : ascii) : bool :=
  let n := nat_of_ascii c in Nat.leb 48 n && Nat.leb n 57.

Definition upper_char (c : ascii) : ascii :=
  if is_lower c then ascii_of_nat (nat_of_ascii c - 32) else c.

Definition lower_char (c : ascii) : ascii :=
  if is_upper c then ascii_of_nat (nat_of_ascii c + 32) else c.

(** [str.upper] and [str.lower] on ASCII strings (see [ascii_only] below):
    only the letters a-z, respectively A-Z, change. *)
Fixpoint upper (s : string) : string :=
  match s with
  | EmptyString => EmptyString
  | String c s' => String (upper_char c) (upper s')
  end.

Fixpoint lower (s : string) : string :=
  match s with
  | EmptyString => EmptyString
  | String c s' => String (lower_char c) (lower s')
  end.

(** Truthiness of a string: [bool(s)]. *)
Definition truthy (s : string) : bool :=
  match s with EmptyString => false | String _ _ => true end.

(** [s.lstrip(ch)], [s.rstrip(ch)] and [s.strip(ch)] for a one-character
    argument. *)
Fixpoint lstrip (ch : ascii) (s : string) : string :=
  match s with
  | EmptyString => EmptyString
  | String c s' => if Ascii.eqb c ch then lstrip ch s' else s
  end.

Fixpoint rstrip (ch : ascii) (s : string) : string :=
  match s with
  | EmptyString => EmptyString
  | String c s' =>
      let r := rstrip ch s' in
      if Ascii.eqb c ch && negb (truthy r) then EmptyString else String c r
  end.

Definition strip (ch : ascii) (s : string) : string := rstrip ch (lstrip ch s).

(** [sep.join(parts)]. *)
Fixpoint join (sep : string) (parts : list string) : string :=
  match parts with
  | [] => EmptyString
  | [p] => p
  | p :: rest => p +:+ sep +:+ join sep rest
  end.

(** [s.replace(old, new)] for single characters. *)
Fixpoint replace_char (old new : ascii) (s : string) : string :=
  match s with
  | EmptyString => EmptyString
  | String c s' =>
      String (if Ascii.eqb c old then new else c) (replace_char old new s')
  end.


(** No character of [s] satisfies [p]. *)
Fixpoint none_of (p : ascii -> bool) (s : string) : bool :=
  match s with
  | EmptyString => true
  | String c s' => negb (p c) && none_of p s'
  end.

(** Every character of [s] is an ASCII character.  On such strings
    [str.upper] and [str.lower] change the letters a-z and A-Z and nothing
    else, which is what [upper] and [lower] compute. *)
Definition ascii_only (s : string) : bool :=
  none_of (fun c => Nat.leb 128 (nat_of_ascii c)) s.

(** The first and the last character of a string, if any. *)
Definition first_char (s : string) : option ascii :=
  match s with
  | EmptyString => None
  | String c _ => Some c
  end.

Fixpoint last_char (s : string) : option ascii :=
  match s with
  | EmptyString => None
  | String c s' =>
      match s' with
      | EmptyString => Some c
      | String _ _ => last_char s'
      end
  end.

End PyStr.

(** ** [_field_env_key]  (_configuration.py, lines 146-147) *)

Module EnvKey.

Import PyStr.

(** [filter(None, xs)] over strings keeps the non-empty ones. *)
Definition filter_None (xs : list string) : list string :=
  List.filter truthy xs.

(** [suffix.strip('_') if suffix else ''] *)
Definition suffix_segment (suffix : option string) : string :=
  match suffix with
  | Some s => if truthy s then strip "_"%char s else EmptyString
  | None => EmptyString
  end.

Definition _field_env_key (model_name key : string) (suffix : option string)
  : string :=
  join "_"
    (filter_None
       (List.map upper ["SDSERVER"; model_name; suffix_segment suffix; key])).

(** The key as the specification words it: the upper-cased segments
    SDSERVER, the model name, the suffix unless absent or empty, and the
    field key, joined by single underscores. *)
Definition spec_field_env_key (m k : string) (s : option string) : string :=
  match s with
  | Some s' =>
      if truthy s'
      then "SDSERVER_" +:+ upper m +:+ "_" +:+ upper s' +:+ "_" +:+ upper k
      else "SDSERVER_" +:+ upper m +:+ "_" +:+ upper k
  | None => "SDSERVER_" +:+ upper m +:+ "_" +:+ upper k
  end.

(** A segment as it enters the key: upper-cased, or left out when empty. *)
Definition segment (x : string) : list string :=
  if truthy x then [upper x] else [].

(** No lower-case letter occurs in [s]. *)
Fixpoint no_lower (s : string) : bool :=
  match s with
  | EmptyString => true
  | String c s' => negb (is_lower c) && no_lower s'
  end.

(** [s] consists of underscores only. *)
Definition underscores (s : string) : bool :=
  none_of (fun c => negb (Ascii.eqb c "_")) s.

(** [t] is [s] without its leading and trailing underscores: [s] is [t]
    between two runs of underscores, and [t] neither starts nor ends with
    one. *)
Definition core_of (s t : string) : Prop :=
  exists a b,
    s = a +:+ t +:+ b
    /\ underscores a = true /\ underscores b = true
    /\ first_char t <> Some "_"%char /\ last_char t <> Some "_"%char.

(** A segment with the separator that precedes it; an empty segment leaves
    no trace. *)
Definition part (x : string) : string :=
  if truthy x then "_" +:+ x else EmptyString.

(** The key as the amended contract words it, for a suffix whose text
    without the surrounding underscores is [t]. *)
Definition amended_field_env_key (m t k : string) : string :=
  "SDSERVER" +:+ part (upper m) +:+ part (upper t) +:+ part (upper k).

(** The text of an optional suffix, empty when it is absent. *)
Definition suffix_text (suffix : option string) : string :=
  match suffix with Some s => s | None => EmptyString end.

End EnvKey.

(** ** The backend probe  (import_utils.py) *)

Module ImportUtils.

(** What the module observes of the process: the environment variables,
    the packages [importlib.util.find_spec] locates, and the distributions
    for which [importlib.metadata.version] does not raise
    [PackageNotFoundError].  All three may differ from one call to the
    next. *)
Record World := {
  environ : gmap string string;
  importable : gset string;
  distributions : gset string
}.

Definition find_spec (w : World) (package : string) : bool :=
  bool_decide (package ∈ importable w).

Definition metadata_version_ok (w : World) (package : string) : bool :=
  bool_decide (package ∈ distributions w).

Definition ENV_VARS_TRUE_VALUES : gset string := {[ "1"; "ON"; "YES"; "TRUE" ]}.

Definition ENV_VARS_TRUE_AND_AUTO_VALUES : gset string :=
  ENV_VARS_TRUE_VALUES ∪ {[ "AUTO" ]}.

(** [os.environ.get(name, "AUTO").upper()] *)
Definition env_flag (w : World) (name : string) : string :=
  PyStr.upper (default "AUTO" (environ w !! name)).

Definition _is_package_available (w : World) (package : string) : bool :=
  let _package_available := find_spec w package in
  if _package_available then metadata_version_ok w package
  else _package_available.

(** The module-level globals, lines 47-51 and 64-69. *)
Record Globals := {
  USE_TF : string;
  USE_TORCH : string;
  USE_JAX : string;
  FORCE_TF_AVAILABLE : string;
  _torch_available : bool;
  _tf_available : bool;
  _flax_available : bool;
  _einops_available : bool;
  _cpm_kernel_available : bool;
  _bitsandbytes_available : bool
}.

(** Executing the module body once, at import time. *)
Definition import_module (w : World) : Globals := {|
  USE_TF := env_flag w "USE_TF";
  USE_TORCH := env_flag w "USE_TORCH";
  USE_JAX := env_flag w "USE_FLAX";
  FORCE_TF_AVAILABLE := env_flag w "FORCE_TF_AVAILABLE";
  _torch_available := find_spec w "torch";
  _tf_available := find_spec w "tensorflow";
  _flax_available := find_spec w "jax" && find_spec w "flax";
  _einops_available := _is_package_available w "einops";
  _cpm_kernel_available := _is_package_available w "cpm_kernels";
  _bitsandbytes_available := _is_package_available w "bitsandbytes"
|}.

Definition set_torch_available (g : Globals) (b : bool) : Globals := {|
  USE_TF := USE_TF g; USE_TORCH := USE_TORCH g; USE_JAX := USE_JAX g;
  FORCE_TF_AVAILABLE := FORCE_TF_AVAILABLE g;
  _torch_available := b;
  _tf_available := _tf_available g;
  _flax_available := _flax_available g;
  _einops_available := _einops_available g;
  _cpm_kernel_available := _cpm_kernel_available g;
  _bitsandbytes_available := _bitsandbytes_available g
|}.

Definition set_flax_available (g : Globals) (b : bool) : Globals := {|
  USE_TF := USE_TF g; USE_TORCH := USE_TORCH g; USE_JAX := USE_JAX g;
  FORCE_TF_AVAILABLE := FORCE_TF_AVAILABLE g;
  _torch_available := _torch_available g;
  _tf_available := _tf_available g;
  _flax_available := b;
  _einops_available := _einops_available g;
  _cpm_kernel_available := _cpm_kernel_available g;
  _bitsandbytes_available := _bitsandbytes_available g
|}.

(** [is_torch_available], lines 72-83.  The call runs in the world [w] of
    the moment and returns the updated globals with the result; the
    [logger.info] of the else branch is not modelled. *)
Definition is_torch_available (w : World) (g : Globals) : Globals * bool :=
  let g' :=
    if bool_decide (USE_TORCH g ∈ ENV_VARS_TRUE_AND_AUTO_VALUES)
       && negb (bool_decide (USE_TF g ∈ ENV_VARS_TRUE_VALUES))
    then
      if _torch_available g
      then (if metadata_version_ok w "torch" then g
            else set_torch_available g false)
      else g
    else set_torch_available g false in
  (g', _torch_available g').

(** [is_flax_available], lines 86-97. *)
Definition is_flax_available (w : World) (g : Globals) : Globals * bool :=
  let g' :=
    if bool_decide (USE_JAX g ∈ ENV_VARS_TRUE_AND_AUTO_VALUES)
    then
      if _flax_available g
      then (if metadata_version_ok w "jax" && metadata_version_ok w "flax"
            then g else set_flax_available g false)
      else g
    else set_flax_available g false in
  (g', _flax_available g').

(** The message templates of lines 100-146.  A formatted message is the
    template together with the name substituted for [{0}]. *)
Inductive Template :=
| PYTORCH_IMPORT_ERROR_WITH_TF
| TF_IMPORT_ERROR_WITH_PYTORCH
| TENSORFLOW_IMPORT_ERROR
| FLAX_IMPORT_ERROR
| PYTORCH_IMPORT_ERROR
| CPM_KERNELS_IMPORT_ERROR
| EINOPS_IMPORT_ERROR.

Record Message := format { template : Template; arg0 : string }.

(** Whether the text of a template states that a TensorFlow installation
    was found and points at the TF-prefixed classes (lines 102-105). *)
Definition cross_reference (t : Template) : bool :=
  match t with PYTORCH_IMPORT_ERROR_WITH_TF => true | _ => false end.

Inductive Exn :=
| ImportError (joined : list Message)
| KeyError (key : string).

Inductive Result (A : Type) :=
| Ok (a : A)
| Raise (e : Exn).
Arguments Ok {A} a.
Arguments Raise {A} e.

(** [BACKENDS_MAPPING], lines 148-152: backend name to probe and template. *)
Definition BACKENDS_MAPPING
  : list (string * ((World -> Globals -> Globals * bool) * Template)) :=
  [ ("torch", (is_torch_available, PYTORCH_IMPORT_ERROR)) ].

Fixpoint mapping_get {V} (m : list (string * V)) (k : string) : option V :=
  match m with
  | [] => None
  | (k', v) :: m' => if String.eqb k' k then Some v else mapping_get m' k
  end.

(** The list comprehension of line 179 over the lazy generator of line 178:
    each backend is looked up (a [KeyError] when unknown), its probe is
    called, and the formatted message is kept when the probe says no. *)
Fixpoint failed_checks (w : World) (name : string) (backends : list string)
  (g : Globals) : Globals * Result (list Message) :=
  match backends with
  | [] => (g, Ok [])
  | backend :: rest =>
      match mapping_get BACKENDS_MAPPING backend with
      | None => (g, Raise (KeyError backend))
      | Some (available, msg) =>
          let '(g1, ok) := available w g in
          match failed_checks w name rest g1 with
          | (g2, Ok failed) =>
              (g2, Ok (if ok then failed else format msg name :: failed))
          | (g2, Raise e) => (g2, Raise e)
          end
      end
  end.

(** [require_backends], lines 168-181; [name] is the name computed on line
    172.  [backends] is already a list. *)
Definition require_backends (w : World) (name : string)
  (backends : list string) (g : Globals) : Globals * Result unit :=
  let '(g1, torch_missing) :=
    if bool_decide ("torch" ∈ backends)
    then (let '(g', ok) := is_torch_available w g in (g', negb ok))
    else (g, false) in
  if torch_missing
  then (g1, Raise (ImportError [format PYTORCH_IMPORT_ERROR_WITH_TF name]))
  else
    match failed_checks w name backends g1 with
    | (g2, Ok []) => (g2, Ok tt)
    | (g2, Ok failed) => (g2, Raise (ImportError failed))
    | (g2, Raise e) => (g2, Raise e)
    end.

(** A sequence of probe calls, one per world, threading the globals. *)
Fixpoint probe_calls (ws : list World) (g : Globals) : list bool :=
  match ws with
  | [] => []
  | w :: ws' =>
      let '(g', r) := is_torch_available w g in r :: probe_calls ws' g'
  end.

(** What the specification asks of the probe: the answer of a call made in
    world [w] is the one obtained when the flags are read from [w], as a
    probe that keeps nothing from earlier calls would give it. *)
Definition probe_reading_flags_now (w : World) : bool :=
  snd (is_torch_available w (import_module w)).

(** The flags allow PyTorch: the condition of line 74. *)
Definition torch_flags_ok (g : Globals) : bool :=
  bool_decide (USE_TORCH g ∈ ENV_VARS_TRUE_AND_AUTO_VALUES)
  && negb (bool_decide (USE_TF g ∈ ENV_VARS_TRUE_VALUES)).

(** Two moments of one process: PyTorch and its metadata are installed
    throughout; the module is imported while USE_TF is 1, and the variable
    is removed afterwards. *)
Definition world_use_tf : World :=
  {| environ := {[ "USE_TF" := "1" ]};
     importable := {[ "torch" ]};
     distributions := {[ "torch" ]} |}.

Definition world_flags_cleared : World :=
  {| environ := ∅;
     importable := {[ "torch" ]};
     distributions := {[ "torch" ]} |}.

(** A process with neither PyTorch nor TensorFlow installed. *)
Definition world_no_backend : World :=
  {| environ := ∅; importable := ∅; distributions := ∅ |}.


(** A sequence of calls of the flax probe, one per world. *)
Fixpoint flax_calls (ws : list World) (g : Globals) : list bool :=
  match ws with
  | [] => []
  | w :: ws' =>
      let '(g', r) := is_flax_available w g in r :: flax_calls ws' g'
  end.

(** The condition of line 88. *)
Definition flax_flags_ok (g : Globals) : bool :=
  bool_decide (USE_JAX g ∈ ENV_VARS_TRUE_AND_AUTO_VALUES).

(** *** [DummyMetaclass], lines 155-165 *)

(** A class whose metaclass is [DummyMetaclass]: its name, its
    [_backends], and the attributes [type.__getattribute__] finds on it,
    with values of some type [A]. *)
Record DummyClass (A : Type) := {
  dummy_name : string;
  dummy_backends : list string;
  dummy_attrs : list (string * A)
}.
Arguments dummy_name {A} _.
Arguments dummy_backends {A} _.
Arguments dummy_attrs {A} _.

(** How an attribute access on such a class ends. *)
Inductive Access (A : Type) :=
| Found (a : A)                 (* the attribute is returned *)
| ReturnsNone                   (* the function falls off its end *)
| NoAttribute (key : string)    (* AttributeError *)
| Raised (e : Exn).
Arguments Found {A} a.
Arguments ReturnsNone {A}.
Arguments NoAttribute {A} key.
Arguments Raised {A} e.

(** [key.startswith("_")] *)
Definition starts_with_underscore (key : string) : bool :=
  match key with
  | String c _ => Ascii.eqb c "_"
  | EmptyString => false
  end.

(** [DummyMetaclass.__getattribute__(cls, key)]: keys that start with an
    underscore, [_backends] and [__name__] among them, go to
    [type.__getattribute__]; for every other key [require_backends] is
    called with the class and its backends, and nothing is returned. *)
Definition dummy_getattribute {A} (w : World) (cls : DummyClass A)
  (key : string) (g : Globals) : Globals * Access A :=
  if starts_with_underscore key
  then match mapping_get (dummy_attrs cls) key with
       | Some a => (g, Found a)
       | None => (g, NoAttribute key)
       end
  else
    match require_backends w (dummy_name cls) (dummy_backends cls) g with
    | (g', Ok _) => (g', ReturnsNone)
    | (g', Raise e) => (g', Raised e)
    end.


(** A process where jax is installed and flax is not. *)
Definition world_jax_only : World :=
  {| environ := ∅;
     importable := {[ "jax"; "flax" ]};
     distributions := {[ "jax" ]} |}.

(** A dummy class that stands for a torch-only pipeline and has a public
    attribute. *)
Definition dummy_pipeline : DummyClass nat :=
  {| dummy_name := "Pipeline";
     dummy_backends := ["torch"];
     dummy_attrs := [("from_pretrained", 1); ("_backends", 0)] |}.

End ImportUtils.

(** ** Python values, dictionaries and exceptions used by the
       configuration layer *)

Module Py.

Inductive Value :=
| VNone
| VBool (b : bool)
| VInt (z : Z)
| VStr (s : string)
| VList (xs : list Value)
| VDict (d : list (string * Value))
(** an instance of an attrs class: class name and slot values *)
| VObj (cls : string) (slots : list (string * Value))
(** a class or function object, of which only the name is kept *)
| VClass (name : string).

Abbreviation Dict := (list (string * Value)).

Definition is_None (v : Value) : bool :=
  match v with VNone => true | _ => false end.

(** [d.get(k)] without the default, [k in d], [d.keys()], [del d[k]] and
    [d[k] = v] (an existing key keeps its position). *)
Fixpoint dict_get (d : Dict) (k : string) : option Value :=
  match d with
  | [] => None
  | (k', v) :: d' => if String.eqb k' k then Some v else dict_get d' k
  end.

Definition dict_has (d : Dict) (k : string) : bool :=
  match dict_get d k with Some _ => true | None => false end.

Definition dict_keys (d : Dict) : list string := List.map fst d.

Fixpoint dict_del (d : Dict) (k : string) : Dict :=
  match d with
  | [] => []
  | (k', v) :: d' =>
      if String.eqb k' k then dict_del d' k else (k', v) :: dict_del d' k
  end.

Fixpoint dict_set (d : Dict) (k : string) (v : Value) : Dict :=
  match d with
  | [] => [(k, v)]
  | (k', v') :: d' =>
      if String.eqb k' k then (k, v) :: d' else (k', v') :: dict_set d' k v
  end.

(** [{k: v for k, v in d.items() if p(k, v)}] *)
Definition dict_filter (p : string -> Value -> bool) (d : Dict) : Dict :=
  List.filter (fun kv => p (fst kv) (snd kv)) d.

Definition str_in (k : string) (ks : list string) : bool :=
  List.existsb (String.eqb k) ks.

(** [d[k] = f(d[k])] when [k] is present, [d[k] = v] otherwise. *)
Fixpoint dict_upsert (f : Value -> Value) (d : Dict) (k : string) (v : Value)
  : Dict :=
  match d with
  | [] => [(k, v)]
  | (k', v') :: d' =>
      if String.eqb k' k then (k, f v') :: d'
      else (k', v') :: dict_upsert f d' k v
  end.

(** [config_merger], lines 136-143: dictionaries are merged key by key,
    recursively; for every other pair of values, and for values of
    different types, the new value overrides the old one.
    [merge base nxt] is [config_merger.merge(base, nxt)]; the Python call
    updates [base] in place and returns it. *)
Fixpoint merge (base nxt : Value) {struct nxt} : Value :=
  match nxt with
  | VDict n =>
      match base with
      | VDict b =>
          VDict
            ((fix strategy_merge (n : Dict) (b : Dict) {struct n} : Dict :=
                match n with
                | [] => b
                | (k, v) :: n' =>
                    strategy_merge n' (dict_upsert (fun old => merge old v) b k v)
                end) n b)
      | _ => nxt
      end
  | _ => nxt
  end.

Definition merge_dict (base nxt : Dict) : Dict :=
  match merge (VDict base) (VDict nxt) with
  | VDict d => d
  | _ => base
  end.

Inductive Exn :=
| TypeError (what : string)
| KeyError (key : string)
| ValueError (what : string)
| RuntimeError (what : string)
| AttributeError (name : string)
| ForbiddenAttributeError (name : string).

Inductive Result (A : Type) :=
| Ok (a : A)
| Raise (e : Exn).
Arguments Ok {A} a.
Arguments Raise {A} e.

Definition bind {A B} (r : Result A) (k : A -> Result B) : Result B :=
  match r with Ok a => k a | Raise e => Raise e end.

Definition is_Ok {A} (r : Result A) : bool :=
  match r with Ok _ => true | Raise _ => false end.

(** [try: body  except TypeError: raise e'] *)
Definition except_TypeError {A} (body : Result A) (e' : Exn) : Result A :=
  match body with
  | Raise (TypeError _) => Raise e'
  | r => r
  end.

(** Calling a function generated by attrs for the fields [fields], each a
    name with its default when it has one, with keyword arguments
    [kwargs]: a keyword that names no field is a [TypeError], as is a field
    with neither argument nor default.  The result lists the fields in
    declaration order. *)
Fixpoint bind_fields (fields : list (string * option Value)) (kwargs : Dict)
  : Result Dict :=
  match fields with
  | [] => Ok []
  | (f, dflt) :: fields' =>
      match (match dict_get kwargs f with Some v => Some v | None => dflt end)
      with
      | None => Raise (TypeError "missing required argument")
      | Some v =>
          bind (bind_fields fields' kwargs) (fun rest => Ok ((f, v) :: rest))
      end
  end.

Definition attrs_init (fields : list (string * option Value)) (kwargs : Dict)
  : Result Dict :=
  if List.forallb (fun k => str_in k (List.map fst fields)) (dict_keys kwargs)
  then bind_fields fields kwargs
  else Raise (TypeError "unexpected keyword argument").


(** [strategy_merge] of [merge] as a function of its own: the entries of
    [nxt] are folded into [base] one by one. *)
Fixpoint merge_entries (nxt base : Dict) : Dict :=
  match nxt with
  | [] => base
  | (k, v) :: nxt' =>
      merge_entries nxt' (dict_upsert (fun old => merge old v) base k v)
  end.


(** The keys of a dictionary are pairwise distinct. *)
Fixpoint unique_keys (ks : list string) : bool :=
  match ks with
  | [] => true
  | k :: ks' => negb (str_in k ks') && unique_keys ks'
  end.

End Py.

(** ** Settings validation and normalisation
       (_configuration.py, lines 154-300; [ModelEnv], import_utils.py,
       lines 184-247) *)

Module Settings.

Import PyStr Py.

(** *** The two functions of the [inflection] package that are used *)

(** [re.sub(r"([A-Z]+)([A-Z][a-z])", r"\1_\2", word)]: an underscore goes
    before the last capital of a run of capitals that a small letter
    follows. *)
Fixpoint underscore_acronyms (s : string) : string :=
  match s with
  | EmptyString => EmptyString
  | String c1 rest =>
      match rest with
      | String c2 (String c3 _) =>
          if is_upper c1 && is_upper c2 && is_lower c3
          then String c1 (String "_" (underscore_acronyms rest))
          else String c1 (underscore_acronyms rest)
      | _ => String c1 (underscore_acronyms rest)
      end
  end.

(** [re.sub(r"([a-z\d])([A-Z])", r"\1_\2", word)] *)
Fixpoint underscore_words (s : string) : string :=
  match s with
  | EmptyString => EmptyString
  | String c1 rest =>
      match rest with
      | String c2 _ =>
          if (is_lower c1 || is_digit c1) && is_upper c2
          then String c1 (String "_" (underscore_words rest))
          else String c1 (underscore_words rest)
      | _ => String c1 (underscore_words rest)
      end
  end.

Definition underscore (word : string) : string :=
  lower (replace_char "-" "_" (underscore_words (underscore_acronyms word))).

Definition dasherize (word : string) : string := replace_char "_" "-" word.

(** [s.replace(pat, '')] for a non-empty [pat]: [skip] counts the
    characters of a match still to be dropped. *)
Fixpoint remove_sub_from (pat : string) (skip : nat) (s : string) : string :=
  match s with
  | EmptyString => EmptyString
  | String c s' =>
      match skip with
      | S n => remove_sub_from pat n s'
      | O =>
          if String.prefix pat s
          then remove_sub_from pat (String.length pat - 1) s'
          else String c (remove_sub_from pat 0 s')
      end
  end.

Definition remove_sub (pat s : string) : string := remove_sub_from pat 0 s.

Fixpoint endswith (s suffix : string) : bool :=
  String.eqb s suffix
  || match s with
     | EmptyString => false
     | String _ s' => endswith s' suffix
     end.

(** *** [ModelEnv]: the derived variable names of a model *)

Definition ModelEnv_attributes : list string :=
  ["config"; "model_id"; "pipeline"; "lora_weights"; "lora_dir"; "framework"].

(** [ModelEnv.__new__]; the attributes are a Python set, set in an order
    that is fixed here. *)
Definition ModelEnv (environ : gmap string string) (model_name : string)
  : Value :=
  let model_name := underscore model_name in
  let names :=
    List.map
      (fun att => (att, VStr (EnvKey._field_env_key model_name (upper att) None)))
      ModelEnv_attributes in
  let framework :=
    EnvKey._field_env_key model_name (upper "framework") None in
  VObj "ModelEnv"
    (("model_name", VStr model_name) :: names
     ++ [("framework_value", VStr (default "pt" (environ !! framework)))]).

(** [getattr(o, name)] on an instance. *)
Definition getattr (o : Value) (name : string) : Result Value :=
  match o with
  | VObj _ slots =>
      match dict_get slots name with
      | Some v => Ok v
      | None => Raise (AttributeError name)
      end
  | _ => Raise (AttributeError name)
  end.

(** *** [ModelSettings] and [_ModelSettingsAttr] *)

(** The annotations of [ModelSettings], lines 160-179, in order, with
    whether the annotation is [Required[...]]. *)
Definition ModelSettings_annotations : list (string * bool) :=
  [ ("default_id", true); ("model_ids", true);
    ("url", false); ("requires_gpu", false); ("trust_remote_code", false);
    ("service_name", false); ("requirements", false);
    ("name_type", false); ("model_name", false); ("start_name", false);
    ("env", false);
    ("timeout", false); ("workers_per_resource", false) ].

Section Fields.

(** [dantic.Field] (sdserver/utils/dantic.py) is not among the sources, and
    which annotations keep their [Required] marker under
    [t.get_type_hints] is the interpreter's affair.  What lines 182-198
    take from the two is a parameter: the default of the attribute built
    for the key [k], [None] when the attribute has no default and its
    keyword is therefore mandatory.  The call of lines 186-193 passes
    neither a validator nor a converter ([use_default_converter=False]). *)
Variable Field_default : string -> option Value.

(** [_settings_field_transformer], lines 182-198: one attribute for each
    annotation of [ModelSettings], under the same name and in the same
    order. *)
Definition _ModelSettingsAttr_fields : list (string * option Value) :=
  List.map
    (fun kr : string * bool => (fst kr, Field_default (fst kr)))
    ModelSettings_annotations.

(** The class [_ModelSettingsAttr] called with keyword arguments. *)
Definition _ModelSettingsAttr (kwargs : Dict) : Result Dict :=
  attrs_init _ModelSettingsAttr_fields kwargs.

(** [_ModelSettingsAttr.__getitem__], lines 205-208. *)
Definition settings_getitem (self : Dict) (key : string) : Result Value :=
  if str_in key (List.map fst ModelSettings_annotations)
  then match dict_get self key with
       | Some v => Ok v
       | None => Raise (AttributeError key)
       end
  else Raise (KeyError key).

(** [_ModelSettingsAttr.default()], lines 210-227.  Three of its keywords,
    [use_pipeline], [model_type] and [runtime], are not annotations of
    [ModelSettings]. *)
Definition default_kwargs : Dict :=
  [ ("default_id", VStr "__default__");
    ("model_ids", VList [VStr "__default__"]);
    ("name_type", VStr "dasherize");
    ("requires_gpu", VBool false);
    ("url", VStr EmptyString);
    ("use_pipeline", VBool false);
    ("model_type", VStr "causal_lm");
    ("trust_remote_code", VBool false);
    ("requirements", VNone);
    ("timeout", VInt 36000000);
    ("service_name", VStr EmptyString);
    ("workers_per_resource", VInt 1);
    ("runtime", VStr "transformers") ].

Definition _ModelSettingsAttr_default : Result Dict :=
  _ModelSettingsAttr default_kwargs.

(** [attr.evolve(inst, **changes)]: every field that [changes] does not
    name is taken from [inst], and the class is called with the result. *)
Definition evolve_changes (fields : list (string * option Value))
  (inst changes : Dict) : Dict :=
  List.fold_left
    (fun (ch : Dict) (f : string * option Value) =>
       if dict_has ch (fst f) then ch
       else match dict_get inst (fst f) with
            | Some v => dict_set ch (fst f) v
            | None => ch
            end)
    fields changes.

Definition settings_evolve (inst changes : Dict) : Result Dict :=
  _ModelSettingsAttr (evolve_changes _ModelSettingsAttr_fields inst changes).

(** *** [structure_settings], lines 230-297 *)

(** A class statement [class <name>(SDConfig): ...] as the function sees
    it. *)
Record ClassDecl := {
  cl_name : string;                (* cl_.__name__ *)
  cl_is_SDConfig : bool;           (* lenient_issubclass(cl_, SDConfig) *)
  cl_config : option Dict;         (* cl_.__config__, None when unset *)
}.

Definition REQUIRED_EMPTIED : string :=
  "Either 'default_id' or 'model_ids' are emptied under '__config__' (required fields).".

Definition GENERATION_CLASS_RESERVED : string :=
  "'generation_class' shouldn't be defined in '__config__'".

(** Lines 248-252: the check of the declared mapping against the settings
    fields, and the overlay on the defaults. *)
Definition settings_from_config (_settings_attr config : Dict) : Result Dict :=
  except_TypeError
    (bind (_ModelSettingsAttr config)
       (fun _ => settings_evolve _settings_attr config))
    (ValueError REQUIRED_EMPTIED).

Definition is_dasherize (v : Value) : bool :=
  match v with VStr s => String.eqb s "dasherize" | _ => false end.

Definition truth (v : Value) : bool :=
  match v with
  | VNone => false
  | VBool b => b
  | VInt z => negb (Z.eqb z 0)
  | VStr s => truthy s
  | VList xs => match xs with [] => false | _ => true end
  | VDict d => match d with [] => false | _ => true end
  | _ => true
  end.

(** Lines 254-297, once [_settings_attr] holds the defaults. *)
Definition structure_settings_from (environ : gmap string string)
  (_cl_name : string) (_settings_attr0 config : Dict) : Result Dict :=
  bind (settings_from_config _settings_attr0 config) (fun _settings_attr =>
  bind (settings_getitem _settings_attr "name_type") (fun name_type =>
  let model_name :=
    if is_dasherize name_type then underscore _cl_name else lower _cl_name in
  let _final_value_dct := [("model_name", VStr model_name)] in
  bind (settings_getitem _settings_attr "name_type") (fun name_type =>
  let start_name :=
    if is_dasherize name_type then dasherize model_name else model_name in
  let _final_value_dct :=
    dict_set _final_value_dct "start_name" (VStr start_name) in
  let env := ModelEnv environ model_name in
  let _final_value_dct := dict_set _final_value_dct "env" env in
  bind (settings_getitem _settings_attr "bettertransformer") (fun bt =>
  bind (if is_None bt
        then bind (getattr env "bettertransformer") (fun name =>
             let var := match name with VStr s => s | _ => EmptyString end in
             Ok (dict_set _final_value_dct "bettertransformer"
                   (VBool (bool_decide
                      (upper (default "False" (environ !! var))
                       ∈ ImportUtils.ENV_VARS_TRUE_VALUES)))))
        else Ok _final_value_dct) (fun _final_value_dct =>
  bind (settings_getitem _settings_attr "requires_gpu") (fun requires_gpu =>
  let _final_value_dct :=
    if truth requires_gpu
    then dict_set _final_value_dct "bettertransformer" (VBool false)
    else _final_value_dct in
  let _final_value_dct :=
    dict_set _final_value_dct "service_name"
      (VStr ("generated_" +:+ model_name +:+ "_service.py")) in
  let _final_value_dct :=
    dict_set _final_value_dct "generation_class"
      (VClass (_cl_name +:+ "GenerationConfig")) in
  settings_evolve _settings_attr _final_value_dct)))))).

Definition structure_settings (environ : gmap string string) (cl_ : ClassDecl)
  : Result Dict :=
  if negb (cl_is_SDConfig cl_)
  then Raise (RuntimeError "must be a subclass type of 'LLMConfig'")
  else
    match cl_config cl_ with
    | None => Raise (RuntimeError "must have '__config__' that is not None")
    | Some config =>
        if dict_has config "generation_class"
        then Raise (ValueError GENERATION_CLASS_RESERVED)
        else
          let _cl_name := remove_sub "Config" (cl_name cl_) in
          bind _ModelSettingsAttr_default (fun _settings_attr =>
          structure_settings_from environ _cl_name _settings_attr config)
    end.

(** The start of [SDConfig.__init_subclass__], lines 617-622: the class
    name is completed, the settings are structured, and each settings field
    [k] is assigned to the class attribute [__sdserver_<k>__]. *)
Definition init_subclass_settings (environ : gmap string string)
  (cls : ClassDecl) : Result Dict :=
  let cls :=
    if endswith (cl_name cls) "Config" then cls
    else {| cl_name := cl_name cls +:+ "Config";
            cl_is_SDConfig := cl_is_SDConfig cls;
            cl_config := cl_config cls |} in
  bind (structure_settings environ cls) (fun attributes =>
  Ok (List.map
        (fun kv : string * Value => ("__sdserver_" +:+ fst kv +:+ "__", snd kv))
        attributes)).

End Fields.

(** The three naming lines on their own (254-263 and 276), as functions of
    the class name and the naming convention. *)
Definition derived_model_name (cl_name : string) (name_type : Value) : string :=
  let _cl_name := remove_sub "Config" cl_name in
  if is_dasherize name_type then underscore _cl_name else lower _cl_name.

Definition derived_start_name (cl_name : string) (name_type : Value) : string :=
  let model_name := derived_model_name cl_name name_type in
  if is_dasherize name_type then dasherize model_name else model_name.

Definition derived_service_name (cl_name : string) (name_type : Value)
  : string :=
  "generated_" +:+ derived_model_name cl_name name_type +:+ "_service.py".


(** *** A class statement to compute with

    [class ModelAConfig(SDConfig)] with the settings of the scenario in the
    specification. *)
Definition ModelA_config : Dict :=
  [ ("default_id", VStr "org/model-a");
    ("model_ids", VList [VStr "org/model-a"; VStr "org/model-b"]);
    ("name_type", VStr "dasherize") ].

Definition ModelAConfig_decl : ClassDecl :=
  {| cl_name := "ModelAConfig";
     cl_is_SDConfig := true;
     cl_config := Some ModelA_config |}.

(** Settings whose required values are present and empty. *)
Definition empty_ids_config : Dict :=
  [ ("default_id", VStr EmptyString); ("model_ids", VList []) ].

(** Settings that lack [model_ids]. *)
Definition missing_model_ids_config : Dict :=
  [ ("default_id", VStr "org/model-a") ].

(** Settings that carry the reserved key. *)
Definition reserved_key_config : Dict :=
  ("generation_class", VClass "Mine") :: ModelA_config.

(** A sample for the parameter: every attribute defaults to [None]. *)
Definition None_defaults (k : string) : option Value := Some VNone.

(** The record [default()] would build if its keywords were restricted to
    the settings fields. *)
Definition defaults_of_known_fields (Field_default : string -> option Value)
  : Dict :=
  match _ModelSettingsAttr Field_default
          (dict_filter
             (fun k _ => str_in k (List.map fst ModelSettings_annotations))
             default_kwargs)
  with
  | Ok s => s
  | Raise _ => []
  end.


(** A name in snake case as far as [underscore] is concerned: no capital
    letter and no dash. *)
Definition snake (s : string) : bool :=
  none_of is_upper s && none_of (fun c => Ascii.eqb c "-") s.


End Settings.


(** ** [SDConfig]: instances of a declared subtype
       (_configuration.py, lines 394 and 733-1005) *)

Module SDConfig.

Import PyStr Py.

Definition _reserved_namespace : gset string :=
  {[ "__config__"; "GenerationConfig" ]}.

Definition reserved (name : string) : bool :=
  bool_decide (name ∈ _reserved_namespace).

(** What [__init_subclass__] leaves on a subtype and the methods read.
    The base class [GenerationConfig] of the generation class is not among
    the sources: the fields of the generation class are the parameter
    [generation_fields]. *)
Record Subtype := {
  (** attributes found on the class through an instance: the
      [__sdserver_<k>__] settings (with [__sdserver_generation_class__] and
      [__sdserver_env__]) and the methods *)
  class_attrs : Dict;
  (** [__sdserver_accepted_keys__] *)
  accepted_keys : list string;
  (** [__attrs_attrs__]: field names with their defaults, [None] for a
      field without default *)
  attrs_attrs : list (string * option Value);
  (** the fields of [__sdserver_generation_class__], with defaults *)
  generation_fields : list (string * option Value);
  (** what else [hasattr] finds on the generation class *)
  generation_class_attrs : Dict
}.

Record Instance := {
  inst_cls : Subtype;
  (** the attributes set on the instance: the slot [__sdserver_extras__]
      and the fields *)
  inst_attrs : Dict
}.

Definition object_getattribute (self : Instance) (name : string)
  : Result Value :=
  match dict_get (inst_attrs self) name with
  | Some v => Ok v
  | None =>
      match dict_get (class_attrs (inst_cls self)) name with
      | Some v => Ok v
      | None => Raise (AttributeError name)
      end
  end.

(** Lines 810-815. *)
Definition __getattribute__ (self : Instance) (item : string) : Result Value :=
  if reserved item then Raise (ForbiddenAttributeError item)
  else object_getattribute self item.

(** The builtin [hasattr]: only [AttributeError] means no. *)
Definition hasattr (self : Instance) (name : string) : Result bool :=
  match __getattribute__ self name with
  | Ok _ => Ok true
  | Raise (AttributeError _) => Ok false
  | Raise e => Raise e
  end.

(** [hasattr(cls.__sdserver_generation_class__, item)] and
    [getattr(g, item)] for an instance [g] of the generation class. *)
Definition generation_class_hasattr (cls : Subtype) (item : string) : bool :=
  str_in item (List.map fst (generation_fields cls))
  || dict_has (generation_class_attrs cls) item.

Definition generation_getattr (cls : Subtype) (g : Value) (item : string)
  : Result Value :=
  match g with
  | VObj _ slots =>
      match dict_get slots item with
      | Some v => Ok v
      | None =>
          match dict_get (generation_class_attrs cls) item with
          | Some v => Ok v
          | None => Raise (AttributeError item)
          end
      end
  | _ => Raise (AttributeError item)
  end.

Definition internal_attributes (item : string) : string :=
  "__sdserver_" +:+ item +:+ "__".

(** Lines 785-808. *)
Definition __getitem__ (self : Instance) (item : Value) : Result Value :=
  match item with
  | VStr item =>
      if reserved item then Raise (ForbiddenAttributeError item)
      else
        bind (hasattr self (internal_attributes item)) (fun found =>
        if found then __getattribute__ self (internal_attributes item)
        else
          bind (hasattr self item) (fun found =>
          if found then __getattribute__ self item
          else
            bind (__getattribute__ self "__sdserver_generation_class__")
              (fun _ =>
            if generation_class_hasattr (inst_cls self) item
            then bind (__getattribute__ self "generation_config") (fun g =>
                 generation_getattr (inst_cls self) g item)
            else
              bind (__getattribute__ self "__sdserver_extras__") (fun extras =>
              match extras with
              | VDict d =>
                  match dict_get d item with
                  | Some v => Ok v
                  | None => Raise (KeyError item)
                  end
              | _ => Raise (TypeError "argument is not iterable")
              end))))
  | _ => Raise (TypeError "LLM only supports string indexing")
  end.

(** Lines 733-741.  [super().__setattr__] is [object.__setattr__]; the
    instances of a subtype carry a [__dict__], so that it stores the
    value. *)
Definition __setattr__ (self : Instance) (attr : string) (value : Value)
  : Result Instance :=
  if reserved attr then Raise (ForbiddenAttributeError attr)
  else Ok {| inst_cls := inst_cls self;
             inst_attrs := dict_set (inst_attrs self) attr value |}.

(** [first_not_none(x, default=d)] *)
Definition first_not_none {A} (x : option A) (d : A) : A :=
  match x with Some a => a | None => d end.

(** The three partitions of lines 751-772: the effective generation
    mapping, the extras mapping, and the keywords left for
    [__attrs_init__]. *)
Definition init_generation_config (cls : Subtype)
  (generation_config : option Dict) (attrs : Dict) : Dict :=
  let _generation_cl_dict := List.map fst (generation_fields cls) in
  let named := dict_filter (fun k _ => str_in k _generation_cl_dict) attrs in
  match generation_config with
  | None => named
  | Some g => merge_dict g named
  end.

Definition init_attrs_1 (generation_config attrs : Dict) : Dict :=
  dict_filter (fun k v => negb (dict_has generation_config k || is_None v))
    attrs.

Definition init_extras (cls : Subtype) (__sdserver_extras__ : option Dict)
  (attrs1 : Dict) : Dict :=
  merge_dict (first_not_none __sdserver_extras__ [])
    (dict_filter (fun k _ => negb (str_in k (accepted_keys cls))) attrs1).

Definition init_attrs_2 (extras attrs1 : Dict) : Dict :=
  dict_filter (fun k _ => negb (dict_has extras k)) attrs1.

(** Calling the class found under [generation_class]. *)
Definition new_generation_config (cls : Subtype) (generation_class : Value)
  (kwargs : Dict) : Result Value :=
  match generation_class with
  | VClass name =>
      bind (attrs_init (generation_fields cls) kwargs) (fun slots =>
      Ok (VObj name slots))
  | _ => Raise (TypeError "object is not callable")
  end.

(** [SDConfig.__init__], lines 743-783. *)
Definition __init__ (cls : Subtype) (generation_config : option Dict)
  (__sdserver_extras__ : option Dict) (attrs : Dict) : Result Instance :=
  let generation_config := init_generation_config cls generation_config attrs in
  let attrs := init_attrs_1 generation_config attrs in
  let extras := init_extras cls __sdserver_extras__ attrs in
  let attrs := init_attrs_2 extras attrs in
  let self :=
    {| inst_cls := cls;
       inst_attrs := [("__sdserver_extras__", VDict extras)] |} in
  bind (__getitem__ self (VStr "generation_class")) (fun generation_class =>
  bind (new_generation_config cls generation_class generation_config) (fun g =>
  bind (attrs_init (attrs_attrs cls) (("generation_config", g) :: attrs))
    (fun fields =>
  Ok {| inst_cls := cls;
        inst_attrs := ("__sdserver_extras__", VDict extras) :: fields |}))).

(** A keyword argument bound to a parameter annotated
    [DictStrAny | None]; other values are outside the annotation and are
    refused here. *)
Definition dict_or_None (v : option Value) : Result (option Dict) :=
  match v with
  | None => Ok None
  | Some VNone => Ok None
  | Some (VDict d) => Ok (Some d)
  | Some _ => Raise (TypeError "expected a dictionary or None")
  end.

(** The call [cls(k1=v1, ...)]: the two named parameters of [__init__] are
    taken out of the keywords. *)
Definition call (cls : Subtype) (kwargs : Dict) : Result Instance :=
  bind (dict_or_None (dict_get kwargs "generation_config")) (fun g =>
  bind (dict_or_None (dict_get kwargs "__sdserver_extras__")) (fun e =>
  __init__ cls g e
    (dict_del (dict_del kwargs "generation_config") "__sdserver_extras__"))).

(** [bentoml_cattr.unstructure] on the values met here: an attrs instance
    becomes the dictionary of its fields, containers are unstructured
    element by element. *)
Fixpoint unstructure (v : Value) : Value :=
  match v with
  | VList xs => VList (List.map unstructure xs)
  | VDict d =>
      VDict ((fix go (d : Dict) : Dict :=
                match d with
                | [] => []
                | (k, x) :: d' => (k, unstructure x) :: go d'
                end) d)
  | VObj _ slots =>
      VDict ((fix go (d : Dict) : Dict :=
                match d with
                | [] => []
                | (k, x) :: d' => (k, unstructure x) :: go d'
                end) slots)
  | _ => v
  end.

(** The unstructure hook of lines 977-980: one entry per field of
    [__attrs_attrs__], none omitted. *)
Fixpoint unstructure_fields (self : Instance)
  (fields : list (string * option Value)) : Result Dict :=
  match fields with
  | [] => Ok []
  | (f, _) :: fields' =>
      bind (__getattribute__ self f) (fun v =>
      bind (unstructure_fields self fields') (fun rest =>
      Ok ((f, unstructure v) :: rest)))
  end.

Fixpoint dict_update (d new : Dict) : Dict :=
  match new with
  | [] => d
  | (k, v) :: new' => dict_update (dict_set d k v) new'
  end.

(** [model_dump], lines 860-865. *)
Definition model_dump (self : Instance) (flatten : bool) : Result Dict :=
  bind (unstructure_fields self (attrs_attrs (inst_cls self))) (fun dumped =>
  if flatten
  then match dict_get dumped "generation_config" with
       | Some (VDict generation_config) =>
           Ok (dict_update (dict_del dumped "generation_config")
                 generation_config)
       | Some _ => Raise (TypeError "argument is not a mapping")
       | None => Raise (KeyError "generation_config")
       end
  else Ok dumped).

(** [structure_sd_config], lines 983-1003. *)
Definition structure_sd_config (data : Value) (cls : Subtype)
  : Result Instance :=
  match data with
  | VDict data =>
      let cls_attrs :=
        dict_filter (fun k _ => str_in k (accepted_keys cls)) data in
      let not_extras := dict_keys cls_attrs in
      let data := dict_filter (fun k _ => negb (str_in k not_extras)) data in
      if dict_has cls_attrs "__sdserver_extras__"
      then Raise (TypeError "got multiple values for keyword argument")
      else call cls (("__sdserver_extras__", VDict data) :: cls_attrs)
  | _ => Raise (RuntimeError "Expected a dictionary")
  end.

(** [attr.evolve(inst, ...)] on an instance of a subtype. *)
Definition evolve (inst : Instance) (changes : Dict) : Result Instance :=
  call (inst_cls inst)
    (Settings.evolve_changes (attrs_attrs (inst_cls inst)) (inst_attrs inst)
       changes).

Definition FAILED_TO_PARSE (model_config : string) : string :=
  "Failed to parse '" +:+ model_config +:+ "' as valid JSON string.".

(** [model_construct_env], lines 870-904.  [loads] is [orjson.loads],
    [None] standing for [orjson.JSONDecodeError]. *)
Definition model_construct_env (environ : gmap string string)
  (loads : string -> option Value) (cls : Subtype) (attrs : Dict)
  : Result Instance :=
  let attrs := dict_filter (fun _ v => negb (is_None v)) attrs in
  bind (match dict_get (class_attrs cls) "__sdserver_env__" with
        | Some env => Settings.getattr env "config"
        | None => Raise (AttributeError "__sdserver_env__")
        end) (fun model_config =>
  let model_config := match model_config with VStr s => s | _ => EmptyString end in
  bind (match environ !! model_config with
        | Some env_json_string =>
            match loads env_json_string with
            | Some v => Ok v
            | None => Raise (RuntimeError (FAILED_TO_PARSE model_config))
            end
        | None => Ok (VDict [])
        end) (fun config_from_env =>
  bind (structure_sd_config config_from_env cls) (fun env_struct =>
  bind (match dict_get attrs "generation_config" with
        | Some (VDict g) => Ok (g, dict_del attrs "generation_config")
        | Some _ => Raise (RuntimeError "Expected a dictionary")
        | None =>
            Ok (dict_filter
                  (fun k _ => str_in k (List.map fst (generation_fields cls)))
                  attrs, attrs)
        end) (fun ga =>
  let generation_config := fst ga in
  let attrs := dict_filter (fun k _ => negb (dict_has generation_config k))
                 (snd ga) in
  evolve env_struct (("generation_config", VDict generation_config) :: attrs))))).


(** *** A subtype to compute with

    [class ModelAConfig(SDConfig)] declaring the fields [generation_config],
    [batch_size] (default 1) and [device] (default [None]), with a generation
    class of three integer parameters. *)
Definition ModelAConfig : Subtype := {|
  class_attrs :=
    [ ("__sdserver_generation_class__", VClass "ModelAGenerationConfig");
      ("__sdserver_env__", Settings.ModelEnv ∅ "model_a");
      ("__sdserver_model_name__", VStr "model_a");
      ("__sdserver_start_name__", VStr "model-a");
      ("model_dump", VClass "model_dump") ];
  accepted_keys := ["generation_config"; "batch_size"; "device"];
  attrs_attrs :=
    [ ("generation_config", None);
      ("batch_size", Some (VInt 1));
      ("device", Some VNone) ];
  generation_fields :=
    [ ("top_k", Some (VInt 50));
      ("max_new_tokens", Some (VInt 20));
      ("num_beams", Some (VInt 1)) ];
  generation_class_attrs := []
|}.


(** The attribute the instance or, failing that, its class provides. *)
Definition attribute (self : Instance) (name : string) : option Value :=
  match dict_get (inst_attrs self) name with
  | Some v => Some v
  | None => dict_get (class_attrs (inst_cls self)) name
  end.

(** The default of field [k] in a field list, when [k] is declared. *)
Fixpoint field_default (fields : list (string * option Value)) (k : string)
  : option (option Value) :=
  match fields with
  | [] => None
  | (f, d) :: fields' =>
      if String.eqb f k then Some d else field_default fields' k
  end.

(** *** Inputs to compute with *)

(** An instance built with a field, a generation parameter and an unknown
    keyword. *)
Definition ModelA_instance : Instance :=
  match call ModelAConfig
          [("batch_size", VInt 4); ("top_k", VInt 10); ("foo", VStr "bar")]
  with
  | Ok c => c
  | Raise _ => {| inst_cls := ModelAConfig; inst_attrs := [] |}
  end.

(** An instance whose extras mapping was passed explicitly and holds a
    reserved name and the name of a declared field. *)
Definition ModelA_instance_extras : Instance :=
  match call ModelAConfig
          [("__sdserver_extras__",
            VDict [("GenerationConfig", VInt 1); ("batch_size", VInt 99)])]
  with
  | Ok c => c
  | Raise _ => {| inst_cls := ModelAConfig; inst_attrs := [] |}
  end.

(** The text [{"generation_config": {"top_k": 10}}] of a configuration
    variable, the value [orjson.loads] gives for it, and a parser that
    knows this text only. *)
Definition dq : string := String "034"%char EmptyString.

Definition blob_text : string :=
  "{" +:+ dq +:+ "generation_config" +:+ dq +:+ ": {"
      +:+ dq +:+ "top_k" +:+ dq +:+ ": 10}}".

Definition blob_value : Value :=
  VDict [("generation_config", VDict [("top_k", VInt 10)])].

Definition loads_blob (s : string) : option Value :=
  if String.eqb s blob_text then Some blob_value else None.

Definition environ_with_blob : gmap string string :=
  {[ "SDSERVER_MODEL_A_CONFIG" := blob_text ]}.

Definition environ_with_garbage : gmap string string :=
  {[ "SDSERVER_MODEL_A_CONFIG" := "{not json" ]}.


(** Keywords with a field set to [None], and the instance built from
    them. *)
Definition None_keyword_attrs : Dict :=
  [("batch_size", VNone); ("foo", VStr "bar")].

Definition ModelA_instance_None_keyword : Instance :=
  match __init__ ModelAConfig None None None_keyword_attrs with
  | Ok c => c
  | Raise _ => {| inst_cls := ModelAConfig; inst_attrs := [] |}
  end.


(** *** Round trip through [model_dump] and [structure_sd_config] *)

(** The entries [(f, h f)] for the fields [fs]. *)
Definition entries {D} (h : string -> Value) (fs : list (string * D)) : Dict :=
  List.map (fun fd => (fst fd, h (fst fd))) fs.

(** The instance of [cls] whose extras mapping is [extras] and whose field
    [f] holds [vals f]. *)
Definition instance_of (cls : Subtype) (extras : Dict)
  (vals : string -> Value) : Instance :=
  {| inst_cls := cls;
     inst_attrs :=
       ("__sdserver_extras__", VDict extras) :: entries vals (attrs_attrs cls) |}.

(** The instance of the generation class [name] whose parameter [f] holds
    [gvals f]. *)
Definition generation_object (cls : Subtype) (name : string)
  (gvals : string -> Value) : Value :=
  VObj name (entries gvals (generation_fields cls)).

(** A subtype that declares all its fields itself, [generation_config]
    among them, none under a reserved name or the name of the extras slot,
    and that carries a generation class. *)
Definition well_formed (cls : Subtype) : bool :=
  let names := List.map fst (attrs_attrs cls) in
  str_in "generation_config" names
  && List.forallb (fun f => str_in f (accepted_keys cls)) names
  && List.forallb
       (fun f => negb (reserved f) && negb (String.eqb "__sdserver_extras__" f))
       names
  && match dict_get (class_attrs cls) "__sdserver_generation_class__" with
     | Some (VClass _) => true
     | _ => false
     end.

(** No field of the subtype is named like a generation parameter. *)
Definition no_collision (cls : Subtype) : bool :=
  List.forallb
    (fun f => negb (str_in f (List.map fst (generation_fields cls))))
    (List.map fst (attrs_attrs cls)).

(** [structure(dump(c))] *)
Definition roundtrip (c : Instance) : Result Instance :=
  bind (model_dump c false) (fun dumped =>
  structure_sd_config (VDict dumped) (inst_cls c)).

(** A subtype that also declares a field [top_k], the name of a
    generation parameter. *)
Definition ModelBConfig : Subtype := {|
  class_attrs := class_attrs ModelAConfig;
  accepted_keys := ["generation_config"; "batch_size"; "top_k"];
  attrs_attrs :=
    [ ("generation_config", None);
      ("batch_size", Some (VInt 1));
      ("top_k", Some (VInt 7)) ];
  generation_fields := generation_fields ModelAConfig;
  generation_class_attrs := []
|}.

(** The instance [ModelBConfig()] makes. *)
Definition ModelB_instance : Instance :=
  match call ModelBConfig [] with
  | Ok c => c
  | Raise _ => {| inst_cls := ModelBConfig; inst_attrs := [] |}
  end.

(** [ModelA_instance] after [c.batch_size = None]. *)
Definition ModelA_instance_batch_None : Instance :=
  match __setattr__ ModelA_instance "batch_size" VNone with
  | Ok c => c
  | Raise _ => ModelA_instance
  end.

(** The field and generation values of [ModelA_instance]. *)
Definition ModelA_vals (f : string) : Value :=
  match dict_get (inst_attrs ModelA_instance) f with
  | Some v => v
  | None => VNone
  end.

Definition ModelA_gvals (f : string) : Value :=
  match ModelA_vals "generation_config" with
  | VObj _ slots => match dict_get slots f with Some v => v | None => VNone end
  | _ => VNone
  end.


(** What the round trip handles on its way: the fields other than
    [generation_config]; the dumped value of a field, the generation object
    having become a dictionary; and the fields that reach [__attrs_init__]
    as keywords. *)
Definition fields_but_generation_config (cls : Subtype)
  : list (string * option Value) :=
  List.filter
    (fun fd : string * option Value =>
       negb (String.eqb (fst fd) "generation_config"))
    (attrs_attrs cls).

Definition dumped (cls : Subtype) (gvals vals : string -> Value) (f : string)
  : Value :=
  if String.eqb f "generation_config"
  then VDict (entries gvals (generation_fields cls))
  else vals f.

Definition keyword_fields (cls : Subtype) (gvals vals : string -> Value)
  : list (string * option Value) :=
  List.filter
    (fun fd : string * option Value =>
       negb (dict_has (entries gvals (generation_fields cls)) (fst fd)
             || is_None (vals (fst fd))))
    (fields_but_generation_config cls).


(** Keywords that go to the three stores: a field, a generation parameter
    given as [None], and an unknown name. *)
Definition routed_attrs : Dict :=
  [("batch_size", VInt 4); ("top_k", VNone); ("foo", VStr "bar")].

Definition ModelA_instance_routed : Instance :=
  match __init__ ModelAConfig None None routed_attrs with
  | Ok c => c
  | Raise _ => {| inst_cls := ModelAConfig; inst_attrs := [] |}
  end.


(** A mapping with two keys that [ModelAConfig] does not accept, one of
    them holding [None]. *)
Definition unknown_keys_data : Dict :=
  [("batch_size", VInt 2); ("foo", VNone); ("bar", VInt 3)].

Definition ModelA_instance_structured : Instance :=
  match structure_sd_config (VDict unknown_keys_data) ModelAConfig with
  | Ok c => c
  | Raise _ => {| inst_cls := ModelAConfig; inst_attrs := [] |}
  end.

End SDConfig.

(** * Properties *)

(** ** Environment keys *)

Section EnvKeyFacts.

Import PyStr EnvKey.

Example field_env_key_generation :
  _field_env_key "flan_t5" "temperature" (Some "generation")
  = "SDSERVER_FLAN_T5_GENERATION_TEMPERATURE".
Proof. reflexivity. Qed.

Example field_env_key_no_suffix :
  _field_env_key "model_a" "CONFIG" None = "SDSERVER_MODEL_A_CONFIG".
Proof. reflexivity. Qed.

Lemma truthy_upper x : truthy (upper x) = truthy x.
Proof. destruct x; reflexivity. Qed.

Lemma upper_char_not_lower c : is_lower (upper_char c) = false.
Proof.
  destruct c as [[] [] [] [] [] [] [] []]; vm_compute; reflexivity.
Qed.

Lemma no_lower_upper s : no_lower (upper s) = true.
Proof.
  induction s as [|c s IH]; simpl; [reflexivity|].
  rewrite upper_char_not_lower, IH. reflexivity.
Qed.

Lemma no_lower_app s t : no_lower (s +:+ t) = no_lower s && no_lower t.
Proof.
  induction s as [|c s IH]; simpl; [reflexivity|].
  rewrite IH. apply andb_assoc.
Qed.

Lemma no_lower_join parts :
  Forall (fun p => no_lower p = true) parts -> no_lower (join "_" parts) = true.
Proof.
  induction 1 as [|p parts Hp Hparts IH]; [reflexivity|].
  destruct parts as [|q parts]; [exact Hp|].
  change (join "_" (p :: q :: parts)) with (p +:+ "_" +:+ join "_" (q :: parts)).
  rewrite !no_lower_app, Hp, IH. reflexivity.
Qed.

Lemma segment_no_lower x : Forall (fun p => no_lower p = true) (segment x).
Proof.
  unfold segment. destruct (truthy x); constructor.
  - apply no_lower_upper.
  - constructor.
Qed.

Lemma field_env_key_segments m k s :
  _field_env_key m k s
  = join "_" ("SDSERVER" :: segment m ++ segment (suffix_segment s) ++ segment k).
Proof.
  unfold _field_env_key, filter_None, segment. cbn [List.map List.filter].
  rewrite !truthy_upper.
  change (truthy (upper "SDSERVER")) with true. cbv iota.
  change (upper "SDSERVER") with "SDSERVER".
  destruct (truthy m), (truthy (suffix_segment s)), (truthy k); reflexivity.
Qed.

Lemma lstrip_underscores a r :
  underscores a = true -> lstrip "_" (a +:+ r) = lstrip "_" r.
Proof.
  induction a as [|c a IH]; [reflexivity|].
  unfold underscores. cbn [none_of]. intros H.
  apply andb_true_iff in H as [Hc Ha]. rewrite negb_involutive in Hc.
  change (String c a +:+ r) with (String c (a +:+ r)).
  cbn [lstrip]. rewrite Hc. apply IH, Ha.
Qed.

Lemma lstrip_all_underscores b : underscores b = true -> lstrip "_" b = "".
Proof.
  induction b as [|c b IH]; [reflexivity|].
  unfold underscores. cbn [none_of]. intros H.
  apply andb_true_iff in H as [Hc Hb]. rewrite negb_involutive in Hc.
  cbn [lstrip]. rewrite Hc. apply IH, Hb.
Qed.

Lemma rstrip_all_underscores b : underscores b = true -> rstrip "_" b = "".
Proof.
  induction b as [|c b IH]; [reflexivity|].
  unfold underscores. cbn [none_of]. intros H.
  apply andb_true_iff in H as [Hc Hb]. rewrite negb_involutive in Hc.
  cbn [rstrip]. rewrite (IH Hb), Hc. reflexivity.
Qed.

Lemma rstrip_core t b :
  underscores b = true -> last_char t <> Some "_"%char ->
  rstrip "_" (t +:+ b) = t.
Proof.
  intros Hb. induction t as [|c t IH]; intros Hl.
  - apply rstrip_all_underscores, Hb.
  - change (String c t +:+ b) with (String c (t +:+ b)). cbn [rstrip].
    destruct t as [|c' t].
    + rewrite IH by discriminate. cbn [last_char] in Hl.
      destruct (Ascii.eqb_spec c "_"%char) as [->|_]; [contradiction|].
      reflexivity.
    + rewrite IH by exact Hl. cbn [truthy negb]. rewrite andb_false_r.
      reflexivity.
Qed.

(** The relation [core_of] describes [str.strip('_')]. *)
Lemma strip_core_of s t : core_of s t -> strip "_" s = t.
Proof.
  intros (a & b & -> & Ha & Hb & Hf & Hl). unfold strip.
  rewrite (lstrip_underscores a _ Ha).
  destruct t as [|c t].
  - change ("" +:+ b) with b. rewrite (lstrip_all_underscores b Hb).
    reflexivity.
  - change (String c t +:+ b) with (String c (t +:+ b)). cbn [lstrip].
    destruct (Ascii.eqb_spec c "_"%char) as [->|_].
    + exfalso. apply Hf. reflexivity.
    + apply (rstrip_core (String c t) b Hb Hl).
Qed.

Lemma lstrip_first s : first_char (lstrip "_" s) <> Some "_"%char.
Proof.
  induction s as [|c s IH]; [discriminate|].
  cbn [lstrip]. destruct (Ascii.eqb_spec c "_"%char) as [->|Hc]; [exact IH|].
  cbn [first_char]. congruence.
Qed.

Lemma lstrip_split s :
  exists a, s = a +:+ lstrip "_" s /\ underscores a = true.
Proof.
  induction s as [|c s (a & Hs & Ha)]; [exists ""; split; reflexivity|].
  cbn [lstrip]. destruct (Ascii.eqb_spec c "_"%char) as [->|Hc].
  - exists (String "_" a). split.
    + change (String "_" a +:+ lstrip "_" s)
        with (String "_"%char (a +:+ lstrip "_" s)).
      rewrite <- Hs. reflexivity.
    + exact Ha.
  - exists "". split; reflexivity.
Qed.

Lemma rstrip_split s :
  exists b, s = rstrip "_" s +:+ b /\ underscores b = true
            /\ last_char (rstrip "_" s) <> Some "_"%char
            /\ (first_char s <> Some "_"%char ->
                first_char (rstrip "_" s) <> Some "_"%char).
Proof.
  induction s as [|c s (b & Hs & Hb & Hl & _)].
  - exists "". repeat split; discriminate.
  - cbn [rstrip].
    destruct (Ascii.eqb c "_" && negb (truthy (rstrip "_" s))) eqn:E.
    + apply andb_true_iff in E as [Hc He].
      apply Ascii.eqb_eq in Hc as ->.
      destruct (rstrip "_" s) eqn:Er; [|discriminate].
      exists (String "_" b). repeat split; try discriminate.
      * change ("" +:+ String "_" b) with (String "_"%char b).
        f_equal. exact Hs.
      * exact Hb.
    + exists b. split; [|split; [exact Hb|split]].
      * change (String c (rstrip "_" s) +:+ b)
          with (String c (rstrip "_" s +:+ b)).
        rewrite <- Hs. reflexivity.
      * cbn [last_char]. destruct (rstrip "_" s) eqn:Er; [|exact Hl].
        cbn [truthy negb] in E. rewrite andb_true_r in E.
        apply Ascii.eqb_neq in E. congruence.
      * intros H. exact H.
Qed.

(** Every string has a core: the one [str.strip('_')] computes. *)
Lemma core_of_strip s : core_of s (strip "_" s).
Proof.
  unfold strip. destruct (lstrip_split s) as (a & Hs & Ha).
  destruct (rstrip_split (lstrip "_" s)) as (b & Hr & Hb & Hl & Hf).
  exists a, b. split; [|split; [exact Ha|split; [exact Hb|split]]].
  - rewrite <- Hr. exact Hs.
  - apply Hf, lstrip_first.
  - exact Hl.
Qed.

Lemma suffix_segment_strip s : suffix_segment s = strip "_" (suffix_text s).
Proof. destruct s as [[|c s]|]; reflexivity. Qed.

Lemma append_empty_r x : x +:+ "" = x.
Proof.
  induction x as [|c x IH]; [reflexivity|].
  change (String c x +:+ "") with (String c (x +:+ "")).
  rewrite IH. reflexivity.
Qed.

Lemma join_parts m t k :
  join "_" ("SDSERVER" :: segment m ++ segment t ++ segment k)
  = amended_field_env_key m t k.
Proof.
  unfold segment, amended_field_env_key, part. rewrite !truthy_upper.
  destruct m as [|c1 m], t as [|c2 t], k as [|c3 k];
    cbn [truthy app join]; rewrite ?append_empty_r; reflexivity.
Qed.

(** C1, as the code has it.  For every ASCII model name [m], field key [k]
    and optional suffix [s]: the suffix has a core [t], its text without
    the leading and trailing underscores (empty when [s] is absent or
    empty); for that core the key is SDSERVER followed, for each non-empty
    one among upper(m), upper(t) and upper(k) in this order, by one
    underscore and the segment; the key holds no lower-case letter; and
    when [m] and [k] are non-empty and [s], if given, neither starts nor
    ends with an underscore, the key is the one the specification
    describes, SDSERVER_<M>_[<S>_]<K>. *)
Theorem field_env_key_amended (m k : string) (s : option string) :
  ascii_only m = true -> ascii_only k = true ->
  ascii_only (suffix_text s) = true ->
  (exists t, core_of (suffix_text s) t)
  /\ (forall t, core_of (suffix_text s) t ->
      _field_env_key m k s = amended_field_env_key m t k)
  /\ no_lower (_field_env_key m k s) = true
  /\ (truthy m = true -> truthy k = true ->
      first_char (suffix_text s) <> Some "_"%char ->
      last_char (suffix_text s) <> Some "_"%char ->
      _field_env_key m k s = spec_field_env_key m k s).
Proof.
  intros _ _ _.
  assert (Hkey : forall t, core_of (suffix_text s) t ->
                   _field_env_key m k s = amended_field_env_key m t k).
  { intros t Ht. rewrite field_env_key_segments, suffix_segment_strip.
    rewrite (strip_core_of _ _ Ht). apply join_parts. }
  split; [exists (strip "_" (suffix_text s)); apply core_of_strip|].
  split; [exact Hkey|]. split.
  - rewrite field_env_key_segments. apply no_lower_join.
    constructor; [reflexivity|].
    repeat (apply Forall_app; split); apply segment_no_lower.
  - intros Hm Hk Hf Hl.
    rewrite (Hkey (suffix_text s)).
    + unfold amended_field_env_key, spec_field_env_key, part.
      rewrite !truthy_upper, Hm, Hk.
      destruct s as [[|c s']|]; reflexivity.
    + exists "", "". split; [|repeat split; assumption].
      change ("" +:+ suffix_text s +:+ "") with (suffix_text s +:+ "").
      symmetry. apply append_empty_r.
Qed.

Lemma field_env_key_amended_witness :
  EnvKey._field_env_key "flan_t5" "temperature" (Some "__generation_")
  = "SDSERVER_FLAN_T5_GENERATION_TEMPERATURE"
  /\ EnvKey._field_env_key "flan_t5" "temperature" (Some "generation")
     = EnvKey.spec_field_env_key "flan_t5" "temperature" (Some "generation").
Proof.
  split.
  - destruct (field_env_key_amended "flan_t5" "temperature"
                (Some "__generation_") eq_refl eq_refl eq_refl)
      as (_ & Hkey & _).
    apply (Hkey "generation").
    exists "__", "_". repeat split; discriminate.
  - destruct (field_env_key_amended "flan_t5" "temperature"
                (Some "generation") eq_refl eq_refl eq_refl)
      as (_ & _ & _ & Hspec).
    apply Hspec; first [reflexivity | discriminate].
Defined.

(** C1 as stated fails: a suffix with a leading underscore is stripped
    before it is joined. *)
Lemma field_env_key_strips_suffix :
  EnvKey._field_env_key "m" "k" (Some "_gen") = "SDSERVER_M_GEN_K"
  /\ EnvKey.spec_field_env_key "m" "k" (Some "_gen") = "SDSERVER_M__GEN_K"
  /\ EnvKey._field_env_key "m" "k" (Some "_gen")
     <> EnvKey.spec_field_env_key "m" "k" (Some "_gen").
Proof. repeat split; try reflexivity. vm_compute. discriminate. Qed.

End EnvKeyFacts.

(** ** The backend probe *)

Section ProbeFacts.

Import ImportUtils.

Lemma is_torch_available_flags w g :
  USE_TORCH (fst (is_torch_available w g)) = USE_TORCH g
  /\ USE_TF (fst (is_torch_available w g)) = USE_TF g.
Proof.
  unfold is_torch_available. cbn [fst].
  repeat match goal with |- context [if ?b then _ else _] => destruct b end;
    split; reflexivity.
Qed.

Lemma is_torch_available_result w g :
  snd (is_torch_available w g) = _torch_available (fst (is_torch_available w g)).
Proof. reflexivity. Qed.

(** Once the cached flag is false, every call answers false and leaves it
    false. *)
Lemma is_torch_available_stays_false w g :
  _torch_available g = false ->
  snd (is_torch_available w g) = false.
Proof.
  intros Hg. unfold is_torch_available. cbn [snd]. rewrite Hg.
  destruct (_ && _); [exact Hg | reflexivity].
Qed.

Lemma probe_calls_after_false ws : forall g,
  _torch_available g = false -> Forall (fun r => r = false) (probe_calls ws g).
Proof.
  induction ws as [|w ws IH]; intros g Hg; [constructor|].
  cbn [probe_calls].
  destruct (is_torch_available w g) as [g' r] eqn:E.
  assert (Hr : r = false).
  { change r with (snd (g', r)). rewrite <- E.
    apply is_torch_available_stays_false, Hg. }
  constructor; [exact Hr|].
  apply IH. change g' with (fst (g', r)). rewrite <- E.
  rewrite <- is_torch_available_result, E. exact Hr.
Qed.

(** C9, as the code has it.  The flags are read once, when the module is
    imported: a call never changes them and its answer does not depend on
    the environment of the moment.  While the flags allow PyTorch and the
    cached answer is still true, a call answers whether the package
    metadata resolves now; once a call has answered false, every later
    call answers false, whatever the environment and the installed
    packages have become. *)
Theorem is_torch_available_amended (g : Globals) (w : World) :
  (forall w', distributions w' = distributions w ->
     is_torch_available w' g = is_torch_available w g)
  /\ USE_TORCH (fst (is_torch_available w g)) = USE_TORCH g
  /\ USE_TF (fst (is_torch_available w g)) = USE_TF g
  /\ (torch_flags_ok g = true -> _torch_available g = true ->
      snd (is_torch_available w g) = metadata_version_ok w "torch")
  /\ (snd (is_torch_available w g) = false ->
      forall ws, Forall (fun r => r = false)
                   (probe_calls ws (fst (is_torch_available w g)))).
Proof.
  split; [|split; [|split; [|split]]].
  - intros w' Hd. unfold is_torch_available, metadata_version_ok.
    rewrite Hd. reflexivity.
  - apply is_torch_available_flags.
  - apply is_torch_available_flags.
  - intros Hf Hg. unfold is_torch_available, torch_flags_ok in *.
    cbn [snd]. rewrite Hf, Hg.
    destruct (metadata_version_ok w "torch"); [exact Hg | reflexivity].
  - intros Hr ws. apply probe_calls_after_false.
    rewrite <- is_torch_available_result. exact Hr.
Qed.

Lemma is_torch_available_amended_witness :
  is_torch_available world_flags_cleared (import_module world_flags_cleared)
  = is_torch_available world_use_tf (import_module world_flags_cleared)
  /\ snd (is_torch_available world_flags_cleared
            (import_module world_flags_cleared))
     = metadata_version_ok world_flags_cleared "torch"
  /\ Forall (fun r => r = false)
       (probe_calls [world_flags_cleared; world_flags_cleared]
          (fst (is_torch_available world_use_tf (import_module world_use_tf)))).
Proof.
  split; [|split].
  - apply (is_torch_available_amended
             (import_module world_flags_cleared) world_use_tf).
    reflexivity.
  - apply (is_torch_available_amended
             (import_module world_flags_cleared) world_flags_cleared);
      vm_compute; reflexivity.
  - apply (is_torch_available_amended
             (import_module world_use_tf) world_use_tf).
    vm_compute. reflexivity.
Defined.

(** C9 as stated fails: the call made after the flag was cleared still
    answers false, where a probe reading the flags at that moment answers
    true. *)
Lemma is_torch_available_latched :
  snd (is_torch_available world_flags_cleared
         (fst (is_torch_available world_use_tf (import_module world_use_tf))))
  = false
  /\ snd (is_torch_available world_flags_cleared (import_module world_use_tf))
     = false
  /\ probe_reading_flags_now world_flags_cleared = true.
Proof. vm_compute. repeat split; reflexivity. Qed.

Lemma require_backends_torch_missing w name backends g :
  "torch" ∈ backends ->
  snd (is_torch_available w g) = false ->
  snd (require_backends w name backends g)
  = Raise (ImportError [format PYTORCH_IMPORT_ERROR_WITH_TF name]).
Proof.
  intros Hin Hno. unfold require_backends.
  rewrite bool_decide_eq_true_2 by exact Hin.
  destruct (is_torch_available w g) as [g' ok]. cbn [snd] in Hno. subst ok.
  reflexivity.
Qed.

(** C8 at the failing input: with neither backend installed, requiring
    torch raises the message that announces a TensorFlow installation and
    points at the TF-prefixed classes, not the plain PyTorch message. *)
Theorem require_backends_cross_reference_without_tf :
  _tf_available (import_module world_no_backend) = false
  /\ snd (require_backends world_no_backend "Model" ["torch"]
            (import_module world_no_backend))
     = Raise (ImportError [format PYTORCH_IMPORT_ERROR_WITH_TF "Model"])
  /\ cross_reference PYTORCH_IMPORT_ERROR_WITH_TF = true
  /\ mapping_get BACKENDS_MAPPING "torch"
     = Some (is_torch_available, PYTORCH_IMPORT_ERROR).
Proof. vm_compute. repeat split; reflexivity. Qed.

End ProbeFacts.

(** ** Settings validation *)

Section SettingsFacts.

Import PyStr Py Settings.

Example underscore_camel_case :
  underscore "ModelA" = "model_a"
  /\ underscore "FlanT5" = "flan_t5"
  /\ underscore "HTMLParser" = "html_parser".
Proof. repeat split; reflexivity. Qed.

Example class_name_stem : remove_sub "Config" "ModelAConfig" = "ModelA".
Proof. reflexivity. Qed.

Lemma bettertransformer_is_no_setting self :
  settings_getitem self "bettertransformer"
  = Raise (KeyError "bettertransformer").
Proof. reflexivity. Qed.

(** Whatever record stands for the defaults, lines 254-297 do not return:
    [bettertransformer] is not a key of [ModelSettings]. *)
Lemma structure_settings_from_raises fd environ _cl_name s0 config :
  is_Ok (structure_settings_from fd environ _cl_name s0 config) = false.
Proof.
  unfold structure_settings_from.
  destruct (settings_from_config fd s0 config) as [s|e]; [|reflexivity].
  cbn [bind].
  destruct (settings_getitem s "name_type") as [nt|e]; [|reflexivity].
  cbn [bind]. rewrite bettertransformer_is_no_setting. reflexivity.
Qed.

(** [default()] raises whatever defaults the attributes have: its keyword
    [use_pipeline] names no attribute. *)
Lemma default_raises fd :
  _ModelSettingsAttr_default fd = Raise (TypeError "unexpected keyword argument").
Proof.
  unfold _ModelSettingsAttr_default, _ModelSettingsAttr, attrs_init.
  unfold _ModelSettingsAttr_fields. rewrite List.map_map. cbn [fst].
  change (forallb _ (dict_keys default_kwargs)) with false.
  reflexivity.
Qed.

Lemma structure_settings_raises fd environ cl_ :
  is_Ok (structure_settings fd environ cl_) = false.
Proof.
  unfold structure_settings.
  destruct (negb (cl_is_SDConfig cl_)); [reflexivity|].
  destruct (cl_config cl_) as [config|]; [|reflexivity].
  destruct (dict_has config "generation_class"); reflexivity.
Qed.

(** A record that the class call returns has a value under every settings
    field. *)
Lemma settings_record_has fd kwargs s k :
  _ModelSettingsAttr fd kwargs = Ok s ->
  str_in k (List.map fst ModelSettings_annotations) = true ->
  exists v, settings_getitem s k = Ok v.
Proof.
  unfold _ModelSettingsAttr, attrs_init, settings_getitem.
  destruct (forallb _ _); [|discriminate].
  intros Hs Hk. rewrite Hk.
  assert (Hkeys : forall fields r,
            bind_fields fields kwargs = Ok r ->
            List.map fst r = List.map fst fields).
  { induction fields as [|[f d] fields IH]; intros r Hr.
    - injection Hr as <-. reflexivity.
    - cbn [bind_fields] in Hr.
      destruct (match dict_get kwargs f with Some v => Some v | None => d end);
        [|discriminate].
      destruct (bind_fields fields kwargs) as [rest|]; [|discriminate].
      cbn [bind] in Hr. injection Hr as <-.
      cbn [List.map fst]. f_equal. apply IH. reflexivity. }
  apply Hkeys in Hs.
  assert (Hin : str_in k (List.map fst s) = true).
  { rewrite Hs. unfold _ModelSettingsAttr_fields. rewrite List.map_map.
    exact Hk. }
  destruct (dict_get s k) as [v|] eqn:E; [eauto|].
  exfalso. clear - Hin E.
  induction s as [|[k0 v0] s IH]; [discriminate|].
  cbn [dict_get] in E. unfold str_in in Hin. cbn [List.map fst existsb] in Hin.
  rewrite (String.eqb_sym k k0) in Hin.
  destruct (String.eqb k0 k); [discriminate|]. apply IH; assumption.
Qed.

(** C4 at the entry point.  For a subtype of [SDConfig] with a declared
    mapping and whatever defaults the settings attributes have: a mapping
    that holds the reserved key [generation_class] is refused with the
    value error, and every other mapping, one with both required keys
    non-empty included, is refused with the type error that [default()]
    raises at line 247, before the check of lines 248-252 is reached; so
    no mapping is accepted, and none gets the value error on required
    fields. *)
Theorem structure_settings_refuses_valid_mapping
  (Field_default : string -> option Value) (environ : gmap string string)
  (cl_ : ClassDecl) (config : Dict) :
  cl_is_SDConfig cl_ = true ->
  cl_config cl_ = Some config ->
  structure_settings Field_default environ cl_
  = (if dict_has config "generation_class"
     then Raise (ValueError GENERATION_CLASS_RESERVED)
     else Raise (TypeError "unexpected keyword argument"))
  /\ structure_settings Field_default environ cl_
     <> Raise (ValueError REQUIRED_EMPTIED)
  /\ is_Ok (structure_settings Field_default environ cl_) = false.
Proof.
  intros Hsub Hcfg.
  assert (H : structure_settings Field_default environ cl_
              = (if dict_has config "generation_class"
                 then Raise (ValueError GENERATION_CLASS_RESERVED)
                 else Raise (TypeError "unexpected keyword argument"))).
  { unfold structure_settings. rewrite Hsub, Hcfg. cbn [negb].
    destruct (dict_has config "generation_class"); [reflexivity|].
    rewrite default_raises. reflexivity. }
  split; [exact H|]. rewrite H.
  destruct (dict_has config "generation_class"); split;
    first [discriminate | reflexivity].
Qed.

Lemma structure_settings_refuses_valid_mapping_witness :
  structure_settings None_defaults ∅ ModelAConfig_decl
  = Raise (TypeError "unexpected keyword argument")
  /\ structure_settings None_defaults ∅
       {| cl_name := "ModelAConfig"; cl_is_SDConfig := true;
          cl_config := Some missing_model_ids_config |}
     = Raise (TypeError "unexpected keyword argument")
  /\ structure_settings None_defaults ∅
       {| cl_name := "ModelAConfig"; cl_is_SDConfig := true;
          cl_config := Some empty_ids_config |}
     = Raise (TypeError "unexpected keyword argument")
  /\ structure_settings None_defaults ∅
       {| cl_name := "ModelAConfig"; cl_is_SDConfig := true;
          cl_config := Some reserved_key_config |}
     = Raise (ValueError GENERATION_CLASS_RESERVED).
Proof.
  refine (conj _ (conj _ (conj _ _))).
  - exact (proj1 (structure_settings_refuses_valid_mapping None_defaults ∅
                    ModelAConfig_decl ModelA_config eq_refl eq_refl)).
  - exact (proj1 (structure_settings_refuses_valid_mapping None_defaults ∅
                    {| cl_name := "ModelAConfig"; cl_is_SDConfig := true;
                       cl_config := Some missing_model_ids_config |}
                    missing_model_ids_config eq_refl eq_refl)).
  - exact (proj1 (structure_settings_refuses_valid_mapping None_defaults ∅
                    {| cl_name := "ModelAConfig"; cl_is_SDConfig := true;
                       cl_config := Some empty_ids_config |}
                    empty_ids_config eq_refl eq_refl)).
  - exact (proj1 (structure_settings_refuses_valid_mapping None_defaults ∅
                    {| cl_name := "ModelAConfig"; cl_is_SDConfig := true;
                       cl_config := Some reserved_key_config |}
                    reserved_key_config eq_refl eq_refl)).
Defined.

Lemma settings_evolve_unfold fd inst changes :
  settings_evolve fd inst changes
  = _ModelSettingsAttr fd
      (evolve_changes (_ModelSettingsAttr_fields fd) inst changes).
Proof. reflexivity. Qed.

Lemma except_TypeError_Ok {A} (body : Result A) e' a :
  except_TypeError body e' = Ok a -> body = Ok a.
Proof.
  destruct body as [b|e]; [intros H; exact H|].
  destruct e; intros H; discriminate H.
Qed.

Lemma bind_Ok {A B} (r : Result A) (k : A -> Result B) b :
  bind r k = Ok b -> exists a, r = Ok a /\ k a = Ok b.
Proof.
  destruct r as [a|e]; [intros H; exists a; split; [reflexivity|exact H]|].
  intros H; discriminate H.
Qed.

Lemma settings_from_config_record fd s0 config s :
  settings_from_config fd s0 config = Ok s ->
  exists kw, _ModelSettingsAttr fd kw = Ok s.
Proof.
  intros E. apply except_TypeError_Ok in E.
  apply bind_Ok in E as (r & _ & E).
  rewrite settings_evolve_unfold in E. eauto.
Qed.

Lemma name_type_is_setting :
  str_in "name_type" (List.map fst ModelSettings_annotations) = true.
Proof. vm_compute. reflexivity. Qed.

Lemma structure_settings_from_bettertransformer fd environ _cl_name s0 config :
  structure_settings_from fd environ _cl_name s0 config
  = match settings_from_config fd s0 config with
    | Ok _ => Raise (KeyError "bettertransformer")
    | Raise e => Raise e
    end.
Proof.
  unfold structure_settings_from.
  destruct (settings_from_config fd s0 config) as [s|e] eqn:E; [|reflexivity].
  destruct (settings_from_config_record fd s0 config s E) as [kw Hs].
  destruct (settings_record_has fd kw s "name_type" Hs name_type_is_setting)
    as [nt Hnt].
  clear E Hs.
  cbn [bind].
  destruct (settings_getitem s "name_type") as [nt'|e]; [|discriminate Hnt].
  cbn [bind]. rewrite bettertransformer_is_no_setting. reflexivity.
Qed.

Lemma init_subclass_settings_ModelA fd environ :
  init_subclass_settings fd environ ModelAConfig_decl
  = Raise (TypeError "unexpected keyword argument").
Proof.
  unfold init_subclass_settings.
  change (endswith (cl_name ModelAConfig_decl) "Config") with true. cbv iota.
  unfold structure_settings.
  change (cl_is_SDConfig ModelAConfig_decl) with true.
  change (cl_config ModelAConfig_decl) with (Some ModelA_config).
  change (dict_has ModelA_config "generation_class") with false.
  cbn [negb]. cbv iota. rewrite default_raises. reflexivity.
Qed.

Lemma structure_settings_from_sample :
  structure_settings_from None_defaults ∅ "ModelA"
    (defaults_of_known_fields None_defaults) ModelA_config
  = Raise (KeyError "bettertransformer").
Proof.
  rewrite structure_settings_from_bettertransformer.
  assert (H : is_Ok (settings_from_config None_defaults
                       (defaults_of_known_fields None_defaults) ModelA_config)
              = true) by (vm_compute; reflexivity).
  destruct (settings_from_config _ _ _); [reflexivity|discriminate H].
Qed.

(** C7 at the failing input: whatever defaults the settings attributes
    have, declaring [ModelAConfig] raises before any name is assigned,
    first in [default()] and, for any record of defaults, at the lookup of
    [bettertransformer] unless the check of the mapping has raised before;
    the three naming lines taken alone give the names the specification
    lists. *)
Theorem init_subclass_ModelAConfig_raises :
  (forall Field_default environ,
     init_subclass_settings Field_default environ ModelAConfig_decl
     = Raise (TypeError "unexpected keyword argument"))
  /\ (forall Field_default environ s0,
        is_Ok (structure_settings_from Field_default environ "ModelA" s0
                 ModelA_config)
        = false)
  /\ (forall Field_default environ s0,
        structure_settings_from Field_default environ "ModelA" s0 ModelA_config
        = match settings_from_config Field_default s0 ModelA_config with
          | Ok _ => Raise (KeyError "bettertransformer")
          | Raise e => Raise e
          end)
  /\ structure_settings_from None_defaults ∅ "ModelA"
       (defaults_of_known_fields None_defaults) ModelA_config
     = Raise (KeyError "bettertransformer")
  /\ derived_model_name "ModelAConfig" (VStr "dasherize") = "model_a"
  /\ derived_start_name "ModelAConfig" (VStr "dasherize") = "model-a"
  /\ derived_service_name "ModelAConfig" (VStr "dasherize")
     = "generated_model_a_service.py".
Proof.
  refine (conj _ (conj _ (conj _ (conj _ (conj _ (conj _ _)))))).
  - exact init_subclass_settings_ModelA.
  - intros fd environ s0. apply structure_settings_from_raises.
  - intros fd environ s0. apply structure_settings_from_bettertransformer.
  - exact structure_settings_from_sample.
  - vm_compute. reflexivity.
  - vm_compute. reflexivity.
  - vm_compute. reflexivity.
Qed.

End SettingsFacts.

(** ** Attribute writes and key lookup on an instance *)

Section InstanceFacts.

Import PyStr Py SDConfig.

Lemma reserved_spec name :
  reserved name = true <-> name = "__config__" \/ name = "GenerationConfig".
Proof.
  unfold reserved, _reserved_namespace.
  rewrite bool_decide_eq_true. set_solver.
Qed.

Lemma reserved_elem name :
  reserved name = true <-> name ∈ _reserved_namespace.
Proof. unfold reserved. apply bool_decide_eq_true. Qed.

Lemma internal_not_reserved item : reserved (internal_attributes item) = false.
Proof.
  destruct (reserved (internal_attributes item)) eqn:E; [|reflexivity].
  apply reserved_spec in E. unfold internal_attributes in E. simpl in E.
  destruct E as [E|E]; discriminate E.
Qed.

Lemma getattribute_attribute self name :
  reserved name = false ->
  __getattribute__ self name
  = match attribute self name with
    | Some v => Ok v
    | None => Raise (AttributeError name)
    end.
Proof.
  intros Hr. unfold __getattribute__, object_getattribute, attribute.
  rewrite Hr. destruct (dict_get (inst_attrs self) name); [reflexivity|].
  destruct (dict_get (class_attrs (inst_cls self)) name); reflexivity.
Qed.

Lemma hasattr_attribute self name :
  reserved name = false ->
  hasattr self name
  = Ok (match attribute self name with Some _ => true | None => false end).
Proof.
  intros Hr. unfold hasattr. rewrite (getattribute_attribute _ _ Hr).
  destruct (attribute self name); reflexivity.
Qed.

(** C3.  Writing a reserved name, [__config__] and [GenerationConfig] among
    them, raises the forbidden-attribute error whatever the instance and
    the value; writing any other name does not raise it. *)
Theorem setattr_reserved_forbidden (self : Instance) (v : Value) :
  "__config__" ∈ _reserved_namespace
  /\ "GenerationConfig" ∈ _reserved_namespace
  /\ (forall r, r ∈ _reserved_namespace ->
        __setattr__ self r v = Raise (ForbiddenAttributeError r))
  /\ (forall name, name ∉ _reserved_namespace ->
        forall n, __setattr__ self name v <> Raise (ForbiddenAttributeError n)).
Proof.
  split; [|split; [|split]].
  - unfold _reserved_namespace. set_solver.
  - unfold _reserved_namespace. set_solver.
  - intros r Hr. apply reserved_elem in Hr. unfold __setattr__.
    rewrite Hr. reflexivity.
  - intros name Hn n. unfold __setattr__.
    destruct (reserved name) eqn:E.
    + apply reserved_elem in E. contradiction.
    + discriminate.
Qed.

Lemma setattr_reserved_forbidden_witness :
  __setattr__ ModelA_instance "GenerationConfig" (VInt 0)
  = Raise (ForbiddenAttributeError "GenerationConfig")
  /\ __setattr__ ModelA_instance "batch_size" (VInt 0)
     <> Raise (ForbiddenAttributeError "batch_size").
Proof.
  destruct (setattr_reserved_forbidden ModelA_instance (VInt 0))
    as (_ & HG & Hres & Hother).
  split.
  - apply Hres. exact HG.
  - apply Hother. unfold _reserved_namespace.
    intros H. apply elem_of_union in H as [H|H];
      apply elem_of_singleton in H; discriminate H.
Defined.

(** C2, as the code has it.  Indexing with anything but a string raises a
    type error; indexing with a reserved name raises the forbidden-attribute
    error before any store is tried; for every other string key the stores
    are tried in the order internal-prefixed attribute, plain attribute,
    generation parameters, extras mapping, the first that has the key gives
    the value, and a key none of them has raises the not-found error. *)
Theorem getitem_amended (self : Instance) :
  (forall item, (forall k, item <> VStr k) ->
     __getitem__ self item = Raise (TypeError "LLM only supports string indexing"))
  /\ (forall k, reserved k = true ->
        __getitem__ self (VStr k) = Raise (ForbiddenAttributeError k))
  /\ (forall k v, reserved k = false ->
        attribute self (internal_attributes k) = Some v ->
        __getitem__ self (VStr k) = Ok v)
  /\ (forall k v, reserved k = false ->
        attribute self (internal_attributes k) = None ->
        attribute self k = Some v ->
        __getitem__ self (VStr k) = Ok v)
  /\ (forall k gc g, reserved k = false ->
        attribute self (internal_attributes k) = None ->
        attribute self k = None ->
        attribute self "__sdserver_generation_class__" = Some gc ->
        generation_class_hasattr (inst_cls self) k = true ->
        attribute self "generation_config" = Some g ->
        __getitem__ self (VStr k) = generation_getattr (inst_cls self) g k)
  /\ (forall k gc d, reserved k = false ->
        attribute self (internal_attributes k) = None ->
        attribute self k = None ->
        attribute self "__sdserver_generation_class__" = Some gc ->
        generation_class_hasattr (inst_cls self) k = false ->
        attribute self "__sdserver_extras__" = Some (VDict d) ->
        __getitem__ self (VStr k)
        = match dict_get d k with
          | Some v => Ok v
          | None => Raise (KeyError k)
          end).
Proof.
  repeat split.
  - intros item Hns. destruct item; try reflexivity.
    exfalso. eapply Hns. reflexivity.
  - intros k Hr. unfold __getitem__. rewrite Hr. reflexivity.
  - intros k v Hr Hint. unfold __getitem__. rewrite Hr.
    rewrite (hasattr_attribute _ _ (internal_not_reserved k)), Hint.
    cbn [bind].
    rewrite (getattribute_attribute _ _ (internal_not_reserved k)), Hint.
    reflexivity.
  - intros k v Hr Hint Hplain. unfold __getitem__. rewrite Hr.
    rewrite (hasattr_attribute _ _ (internal_not_reserved k)), Hint.
    cbn [bind].
    rewrite (hasattr_attribute _ _ Hr), Hplain. cbn [bind].
    rewrite (getattribute_attribute _ _ Hr), Hplain. reflexivity.
  - intros k gc g Hr Hint Hplain Hgc Hhas Hg. unfold __getitem__. rewrite Hr.
    rewrite (hasattr_attribute _ _ (internal_not_reserved k)), Hint.
    cbn [bind].
    rewrite (hasattr_attribute _ _ Hr), Hplain. cbn [bind].
    rewrite (getattribute_attribute self "__sdserver_generation_class__")
      by reflexivity.
    rewrite Hgc. cbn [bind]. rewrite Hhas.
    rewrite (getattribute_attribute self "generation_config") by reflexivity.
    rewrite Hg. reflexivity.
  - intros k gc d Hr Hint Hplain Hgc Hhas Hex. unfold __getitem__. rewrite Hr.
    rewrite (hasattr_attribute _ _ (internal_not_reserved k)), Hint.
    cbn [bind].
    rewrite (hasattr_attribute _ _ Hr), Hplain. cbn [bind].
    rewrite (getattribute_attribute self "__sdserver_generation_class__")
      by reflexivity.
    rewrite Hgc. cbn [bind]. rewrite Hhas.
    rewrite (getattribute_attribute self "__sdserver_extras__") by reflexivity.
    rewrite Hex. reflexivity.
Qed.

Lemma getitem_amended_witness :
  __getitem__ ModelA_instance (VInt 3)
  = Raise (TypeError "LLM only supports string indexing")
  /\ __getitem__ ModelA_instance (VStr "__config__")
     = Raise (ForbiddenAttributeError "__config__")
  /\ __getitem__ ModelA_instance (VStr "model_name") = Ok (VStr "model_a")
  /\ __getitem__ ModelA_instance_extras (VStr "batch_size") = Ok (VInt 1)
  /\ __getitem__ ModelA_instance (VStr "top_k") = Ok (VInt 10)
  /\ __getitem__ ModelA_instance (VStr "foo") = Ok (VStr "bar")
  /\ __getitem__ ModelA_instance (VStr "nope") = Raise (KeyError "nope").
Proof.
  destruct (getitem_amended ModelA_instance)
    as (Hty & Hres & Hint & _ & Hgen & Hext).
  destruct (getitem_amended ModelA_instance_extras)
    as (_ & _ & _ & Hplain & _ & _).
  refine (conj _ (conj _ (conj _ (conj _ (conj _ (conj _ _)))))).
  - apply Hty. discriminate.
  - apply Hres. reflexivity.
  - apply Hint; reflexivity.
  - apply Hplain; reflexivity.
  - apply (Hgen "top_k" (VClass "ModelAGenerationConfig")
             (VObj "ModelAGenerationConfig"
                [("top_k", VInt 10); ("max_new_tokens", VInt 20);
                 ("num_beams", VInt 1)])); reflexivity.
  - apply (Hext "foo" (VClass "ModelAGenerationConfig")
             [("foo", VStr "bar")]); reflexivity.
  - apply (Hext "nope" (VClass "ModelAGenerationConfig")
             [("foo", VStr "bar")]); reflexivity.
Defined.

(** C2 as stated fails: a reserved name held by the extras mapping, and by
    no store before it, is not returned; the lookup raises the
    forbidden-attribute error. *)
Lemma getitem_reserved_key_in_extras :
  attribute ModelA_instance_extras (internal_attributes "GenerationConfig")
  = None
  /\ attribute ModelA_instance_extras "GenerationConfig" = None
  /\ generation_class_hasattr ModelAConfig "GenerationConfig" = false
  /\ attribute ModelA_instance_extras "__sdserver_extras__"
     = Some (VDict [("GenerationConfig", VInt 1); ("batch_size", VInt 99)])
  /\ __getitem__ ModelA_instance_extras (VStr "GenerationConfig")
     = Raise (ForbiddenAttributeError "GenerationConfig").
Proof. vm_compute. repeat split; reflexivity. Qed.

End InstanceFacts.

(** ** Dictionaries *)

Section DictFacts.

Import Py.

Lemma dict_get_In d k v : dict_get d k = Some v -> In (k, v) d.
Proof.
  induction d as [|[k' v'] d IH]; cbn [dict_get]; [discriminate|].
  destruct (String.eqb_spec k' k) as [->|Hne].
  - intros [= ->]. left. reflexivity.
  - intros H. right. apply IH, H.
Qed.

Lemma dict_get_None_notin d k :
  dict_get d k = None <-> ~ In k (dict_keys d).
Proof.
  induction d as [|[k' v'] d IH]; cbn [dict_get dict_keys List.map fst].
  - split; [intros _ []|reflexivity].
  - destruct (String.eqb_spec k' k) as [->|Hne].
    + split; [discriminate|]. intros H. exfalso. apply H. left. reflexivity.
    + rewrite IH. unfold dict_keys. cbn [In]. tauto.
Qed.

Lemma str_in_In k ks : str_in k ks = true <-> In k ks.
Proof.
  unfold str_in. rewrite existsb_exists. split.
  - intros (x & Hx & Heq). apply String.eqb_eq in Heq. subst x. exact Hx.
  - intros H. exists k. split; [exact H|apply String.eqb_refl].
Qed.

Lemma str_in_false k ks : str_in k ks = false <-> ~ In k ks.
Proof.
  rewrite <- str_in_In. destruct (str_in k ks); split; congruence.
Qed.

Lemma unique_keys_NoDup ks : unique_keys ks = true -> List.NoDup ks.
Proof.
  induction ks as [|k ks IH]; cbn [unique_keys]; [constructor|].
  intros H. apply andb_true_iff in H as [Hk Hks].
  constructor; [|apply IH, Hks].
  apply str_in_false. destruct (str_in k ks); [discriminate|reflexivity].
Qed.

Lemma dict_get_unique d k v w :
  List.NoDup (dict_keys d) -> dict_get d k = Some v -> In (k, w) d -> w = v.
Proof.
  induction d as [|[k' v'] d IH]; cbn [dict_get dict_keys List.map fst];
    [intros _ [=]|].
  intros Hnd Hget Hin. apply List.NoDup_cons_iff in Hnd as [Hnotin Hnd].
  destruct (String.eqb_spec k' k) as [->|Hne].
  - injection Hget as <-. destruct Hin as [[= <-]|Hin]; [reflexivity|].
    exfalso. apply Hnotin. apply (in_map fst) in Hin. exact Hin.
  - destruct Hin as [[= -> _]|Hin]; [contradiction|].
    apply IH; assumption.
Qed.

Lemma dict_filter_del p d k :
  (forall v, In (k, v) d -> p k v = false) ->
  dict_filter p (dict_del d k) = dict_filter p d.
Proof.
  induction d as [|[k' v'] d IH]; intros Hp; [reflexivity|].
  cbn [dict_del]. unfold dict_filter in *. cbn [List.filter fst snd].
  destruct (String.eqb_spec k' k) as [->|Hne].
  - rewrite (Hp v') by (left; reflexivity).
    apply IH. intros v Hv. apply Hp. right. exact Hv.
  - cbn [List.filter fst snd]. rewrite IH; [reflexivity|].
    intros v Hv. apply Hp. right. exact Hv.
Qed.

Lemma dict_get_filter_false p d k :
  (forall v, In (k, v) d -> p k v = false) ->
  dict_get (dict_filter p d) k = None.
Proof.
  induction d as [|[k' v'] d IH]; intros Hp; [reflexivity|].
  unfold dict_filter in *. cbn [List.filter fst snd].
  assert (IH' : dict_get (List.filter (fun kv => p (fst kv) (snd kv)) d) k = None).
  { apply IH. intros v Hv. apply Hp. right. exact Hv. }
  destruct (p k' v') eqn:E; [|exact IH'].
  cbn [dict_get]. destruct (String.eqb_spec k' k) as [->|Hne]; [|exact IH'].
  rewrite (Hp v') in E by (left; reflexivity). discriminate.
Qed.

Lemma dict_get_filter_None p d k :
  dict_get d k = None -> dict_get (dict_filter p d) k = None.
Proof.
  intros H. apply dict_get_filter_false. intros v Hv.
  apply dict_get_None_notin in H. exfalso. apply H.
  apply (in_map fst) in Hv. exact Hv.
Qed.

Lemma dict_get_upsert_ne f d k' v k :
  k' <> k -> dict_get (dict_upsert f d k' v) k = dict_get d k.
Proof.
  intros Hne. induction d as [|[k0 v0] d IH]; cbn [dict_upsert dict_get].
  - destruct (String.eqb_spec k' k); [contradiction|reflexivity].
  - destruct (String.eqb_spec k0 k') as [->|Hne0]; cbn [dict_get].
    + destruct (String.eqb_spec k' k); [contradiction|reflexivity].
    + destruct (String.eqb_spec k0 k); [reflexivity|exact IH].
Qed.

Lemma merge_dict_entries base nxt :
  merge_dict base nxt = merge_entries nxt base.
Proof.
  unfold merge_dict. cbn [merge]. revert base.
  induction nxt as [|[k v] nxt IH]; intros base; [reflexivity|].
  cbn [merge_entries]. apply IH.
Qed.

Lemma merge_dict_nil base : merge_dict base [] = base.
Proof. reflexivity. Qed.

Lemma dict_get_merge_entries nxt : forall base k,
  dict_get nxt k = None ->
  dict_get (merge_entries nxt base) k = dict_get base k.
Proof.
  induction nxt as [|[k' v'] nxt IH]; intros base k Hk; [reflexivity|].
  cbn [merge_entries]. cbn [dict_get] in Hk.
  destruct (String.eqb_spec k' k) as [->|Hne]; [discriminate|].
  rewrite IH by exact Hk. apply dict_get_upsert_ne, Hne.
Qed.

Lemma bind_fields_get fields kwargs : forall r k,
  bind_fields fields kwargs = Ok r ->
  dict_get r k
  = match SDConfig.field_default fields k with
    | Some d => match dict_get kwargs k with Some v => Some v | None => d end
    | None => None
    end.
Proof.
  induction fields as [|[f d] fields IH]; intros r k Hr.
  - injection Hr as <-. reflexivity.
  - cbn [bind_fields] in Hr. cbn [SDConfig.field_default].
    destruct (match dict_get kwargs f with Some v => Some v | None => d end)
      as [v|] eqn:Ev; [|discriminate].
    destruct (bind_fields fields kwargs) as [rest|e] eqn:Er; [|discriminate].
    cbn [bind] in Hr. injection Hr as <-. cbn [dict_get].
    destruct (String.eqb_spec f k) as [->|Hne].
    + destruct (dict_get kwargs k); [exact (eq_sym Ev)|exact (eq_sym Ev)].
    + apply IH. reflexivity.
Qed.

End DictFacts.

(** ** Construction *)

Section ConstructionFacts.

Import Py SDConfig.

(** The scenario of the specification: an unknown keyword lands in the
    extras mapping and is found by key. *)
Example unknown_keyword_goes_to_extras :
  dict_get (inst_attrs ModelA_instance) "__sdserver_extras__"
  = Some (VDict [("foo", VStr "bar")])
  /\ __getitem__ ModelA_instance (VStr "foo") = Ok (VStr "bar").
Proof. split; reflexivity. Qed.

Example merge_nested :
  merge_dict [("a", VInt 1); ("b", VDict [("x", VInt 1)])]
    [("b", VDict [("y", VInt 2)]); ("a", VInt 3)]
  = [("a", VInt 3); ("b", VDict [("x", VInt 1); ("y", VInt 2)])].
Proof. reflexivity. Qed.

Lemma None_keyword_fails_filter (attrs g : Dict) k :
  unique_keys (dict_keys attrs) = true ->
  dict_get attrs k = Some VNone ->
  forall v, In (k, v) attrs -> negb (dict_has g k || is_None v) = false.
Proof.
  intros Hu Hk v Hv.
  rewrite (dict_get_unique attrs k VNone v (unique_keys_NoDup _ Hu) Hk Hv).
  cbn [is_None]. rewrite orb_true_r. reflexivity.
Qed.

Lemma init_attrs_1_del g attrs k :
  unique_keys (dict_keys attrs) = true ->
  dict_get attrs k = Some VNone ->
  init_attrs_1 g (dict_del attrs k) = init_attrs_1 g attrs.
Proof.
  intros Hu Hk. unfold init_attrs_1. apply dict_filter_del.
  apply None_keyword_fails_filter; assumption.
Qed.

Lemma init_generation_config_del cls gc attrs k :
  str_in k (List.map fst (generation_fields cls)) = false ->
  init_generation_config cls gc (dict_del attrs k)
  = init_generation_config cls gc attrs.
Proof.
  intros Hk. unfold init_generation_config.
  rewrite dict_filter_del; [reflexivity|]. intros v _. exact Hk.
Qed.

(** C10.  A keyword whose value is [None] and whose name is not a
    generation parameter is dropped by the constructor: it is not among
    the keywords handed to the field initializer, the extras mapping
    receives nothing for it, the generation mapping is the one built
    without it, the whole construction equals the construction without
    the keyword, and when it names a declared field the instance holds
    the declared default. *)
Theorem init_discards_None_keyword (cls : Subtype)
  (generation_config __sdserver_extras__ : option Dict) (attrs : Dict)
  (k : string) :
  unique_keys (dict_keys attrs) = true ->
  dict_get attrs k = Some VNone ->
  str_in k (List.map fst (generation_fields cls)) = false ->
  let g := init_generation_config cls generation_config attrs in
  let a1 := init_attrs_1 g attrs in
  let e := init_extras cls __sdserver_extras__ a1 in
  dict_get (init_attrs_2 e a1) k = None
  /\ dict_get e k = dict_get (first_not_none __sdserver_extras__ []) k
  /\ init_generation_config cls generation_config (dict_del attrs k) = g
  /\ __init__ cls generation_config __sdserver_extras__ attrs
     = __init__ cls generation_config __sdserver_extras__ (dict_del attrs k)
  /\ (forall inst d,
        __init__ cls generation_config __sdserver_extras__ attrs = Ok inst ->
        field_default (attrs_attrs cls) k = Some (Some d) ->
        k <> "generation_config" -> k <> "__sdserver_extras__" ->
        dict_get (inst_attrs inst) k = Some d).
Proof.
  intros Hu Hk Hgen g a1 e.
  assert (Ha1 : dict_get a1 k = None).
  { apply dict_get_filter_false.
    apply None_keyword_fails_filter; assumption. }
  assert (Ha2 : dict_get (init_attrs_2 e a1) k = None).
  { apply dict_get_filter_None, Ha1. }
  split; [exact Ha2|]. split.
  { unfold e, init_extras. rewrite merge_dict_entries.
    apply dict_get_merge_entries, dict_get_filter_None, Ha1. }
  split; [apply init_generation_config_del, Hgen|]. split.
  { unfold __init__.
    rewrite (init_generation_config_del cls generation_config attrs k Hgen).
    rewrite (init_attrs_1_del _ attrs k Hu Hk). reflexivity. }
  intros inst d Hinit Hd Hgc Hex. unfold __init__ in Hinit.
  fold g in Hinit. fold a1 in Hinit. fold e in Hinit.
  destruct (__getitem__ _ (VStr "generation_class")) as [gcl|?];
    [|discriminate].
  cbn [bind] in Hinit.
  destruct (new_generation_config cls gcl g) as [gv|?]; [|discriminate].
  cbn [bind] in Hinit. unfold attrs_init in Hinit.
  destruct (forallb _ _); [|discriminate].
  destruct (bind_fields _ _) as [fields|?] eqn:Ef; [|discriminate].
  cbn [bind] in Hinit. injection Hinit as <-. cbn [inst_attrs dict_get].
  destruct (String.eqb_spec "__sdserver_extras__" k) as [<-|_];
    [contradiction|].
  rewrite (bind_fields_get _ _ _ k Ef), Hd. cbn [dict_get].
  destruct (String.eqb_spec "generation_config" k) as [<-|_];
    [contradiction|].
  rewrite Ha2. reflexivity.
Qed.

Lemma init_discards_None_keyword_witness :
  __init__ ModelAConfig None None None_keyword_attrs
  = __init__ ModelAConfig None None (dict_del None_keyword_attrs "batch_size")
  /\ dict_get (inst_attrs ModelA_instance_None_keyword) "batch_size"
     = Some (VInt 1).
Proof.
  destruct (init_discards_None_keyword ModelAConfig None None
              None_keyword_attrs "batch_size")
    as (_ & _ & _ & Heq & Hdefault); try reflexivity.
  split; [exact Heq|].
  apply Hdefault; try reflexivity; discriminate.
Defined.

(** [model_construct_env] names the variable whose text does not parse. *)
Lemma model_construct_env_invalid_json environ loads cls attrs env var text :
  dict_get (class_attrs cls) "__sdserver_env__" = Some env ->
  Settings.getattr env "config" = Ok (VStr var) ->
  environ !! var = Some text ->
  loads text = None ->
  model_construct_env environ loads cls attrs
  = Raise (RuntimeError (FAILED_TO_PARSE var)).
Proof.
  intros Henv Hvar Htext Hloads. unfold model_construct_env.
  rewrite Henv, Hvar. cbn [bind]. rewrite Htext, Hloads. reflexivity.
Qed.

(** C5 at the failing input: the variable holds a valid blob that sets the
    generation parameter [top_k] to 10, and no override is passed.  The
    blob structures into an instance with [top_k] 10, yet the result of
    [model_construct_env] has the declared default 50: [evolve] is always
    given a [generation_config] mapping built from the overrides, which
    replaces the one of the blob.  A text that does not parse raises the
    error that names the variable. *)
Theorem model_construct_env_drops_blob_generation_config :
  loads_blob blob_text = Some blob_value
  /\ bind (structure_sd_config blob_value ModelAConfig)
         (fun c => __getitem__ c (VStr "top_k")) = Ok (VInt 10)
  /\ bind (model_construct_env environ_with_blob loads_blob ModelAConfig [])
         (fun c => __getitem__ c (VStr "top_k")) = Ok (VInt 50)
  /\ field_default (generation_fields ModelAConfig) "top_k"
     = Some (Some (VInt 50))
  /\ model_construct_env environ_with_garbage loads_blob ModelAConfig []
     = Raise (RuntimeError (FAILED_TO_PARSE "SDSERVER_MODEL_A_CONFIG")).
Proof. vm_compute. repeat split; reflexivity. Qed.

End ConstructionFacts.

(** ** Round trip *)

Section EntriesFacts.

Import Py SDConfig.

Context {D : Type}.
Implicit Types (h : string -> Value) (fs : list (string * D)).

Lemma dict_keys_entries h fs : dict_keys (entries h fs) = List.map fst fs.
Proof.
  unfold dict_keys, entries. rewrite List.map_map. reflexivity.
Qed.

Lemma dict_get_entries h fs k :
  dict_get (entries h fs) k
  = if str_in k (List.map fst fs) then Some (h k) else None.
Proof.
  induction fs as [|[f d] fs IH]; [reflexivity|].
  cbn [entries List.map fst dict_get]. unfold str_in. cbn [existsb].
  rewrite (String.eqb_sym k f).
  destruct (String.eqb_spec f k) as [->|Hne]; [reflexivity|exact IH].
Qed.

Lemma dict_filter_entries p h fs :
  dict_filter p (entries h fs)
  = entries h (List.filter (fun fd => p (fst fd) (h (fst fd))) fs).
Proof.
  unfold dict_filter, entries.
  induction fs as [|[f d] fs IH]; [reflexivity|].
  cbn [List.map List.filter fst snd].
  destruct (p f (h f)); cbn [List.map fst]; rewrite IH; reflexivity.
Qed.

Lemma dict_del_entries h fs k :
  dict_del (entries h fs) k
  = entries h (List.filter (fun fd => negb (String.eqb (fst fd) k)) fs).
Proof.
  unfold entries.
  induction fs as [|[f d] fs IH]; [reflexivity|].
  cbn [List.map List.filter fst dict_del].
  destruct (String.eqb f k); cbn [negb List.map fst]; rewrite IH; reflexivity.
Qed.

Lemma entries_ext h h' fs :
  (forall fd, In fd fs -> h (fst fd) = h' (fst fd)) ->
  entries h fs = entries h' fs.
Proof.
  intros H. unfold entries. apply List.map_ext_in.
  intros fd Hfd. rewrite (H fd Hfd). reflexivity.
Qed.

Lemma filter_all (p : string * D -> bool) fs :
  (forall fd, In fd fs -> p fd = true) -> List.filter p fs = fs.
Proof.
  induction fs as [|fd fs IH]; intros H; [reflexivity|].
  cbn [List.filter]. rewrite (H fd) by (left; reflexivity).
  rewrite IH; [reflexivity|]. intros x Hx. apply H. right. exact Hx.
Qed.

Lemma filter_none (p : string * D -> bool) fs :
  (forall fd, In fd fs -> p fd = false) -> List.filter p fs = [].
Proof.
  induction fs as [|fd fs IH]; intros H; [reflexivity|].
  cbn [List.filter]. rewrite (H fd) by (left; reflexivity).
  apply IH. intros x Hx. apply H. right. exact Hx.
Qed.

Lemma In_fst_str_in (fd : string * D) fs :
  In fd fs -> str_in (fst fd) (List.map fst fs) = true.
Proof. intros H. apply str_in_In. apply in_map, H. Qed.

End EntriesFacts.

Section BindFieldsFacts.

Import Py SDConfig.

Lemma bind_fields_entries h (fs : list (string * option Value)) kwargs :
  (forall fd, In fd fs ->
     match dict_get kwargs (fst fd) with Some v => Some v | None => snd fd end
     = Some (h (fst fd))) ->
  bind_fields fs kwargs = Ok (entries h fs).
Proof.
  induction fs as [|[f d] fs IH]; intros H; [reflexivity|].
  pose proof (H (f, d) (or_introl eq_refl)) as H0. cbn [fst snd] in H0.
  cbn [bind_fields]. rewrite H0.
  rewrite IH by (intros fd Hfd; apply H; right; exact Hfd).
  reflexivity.
Qed.

Lemma unstructure_entries_of name (d : Dict) :
  unstructure (VObj name d)
  = VDict (List.map (fun kv => (fst kv, unstructure (snd kv))) d).
Proof.
  cbn [unstructure]. f_equal.
  induction d as [|[k v] d IH]; [reflexivity|].
  cbn [List.map fst snd]. rewrite IH. reflexivity.
Qed.

Lemma unstructure_fields_entries self (vals : string -> Value)
  (fs : list (string * option Value)) :
  (forall fd, In fd fs -> __getattribute__ self (fst fd) = Ok (vals (fst fd))) ->
  unstructure_fields self fs = Ok (entries (fun f => unstructure (vals f)) fs).
Proof.
  induction fs as [|[f d] fs IH]; intros H; [reflexivity|].
  pose proof (H (f, d) (or_introl eq_refl)) as H0. cbn [fst] in H0.
  cbn [unstructure_fields]. rewrite H0.
  cbn [bind]. rewrite IH by (intros fd Hfd; apply H; right; exact Hfd).
  reflexivity.
Qed.

Lemma forallb_str_in_self ks : forallb (fun k => str_in k ks) ks = true.
Proof.
  apply forallb_forall. intros k Hk. apply str_in_In, Hk.
Qed.

End BindFieldsFacts.

Section RoundTrip.

Import Py SDConfig.

Variables (cls : Subtype) (extras : Dict) (vals gvals : string -> Value)
  (name : string).

Hypothesis Hwf : well_formed cls = true.
Hypothesis Hnc : no_collision cls = true.
Hypothesis Hclass :
  dict_get (class_attrs cls) "__sdserver_generation_class__"
  = Some (VClass name).
Hypothesis Hgen : vals "generation_config" = generation_object cls name gvals.
Hypothesis Hplain : forall f d,
  In (f, d) (attrs_attrs cls) -> f <> "generation_config" ->
  unstructure (vals f) = vals f /\ (vals f = VNone -> d = Some VNone).
Hypothesis Hgplain : forall f d,
  In (f, d) (generation_fields cls) -> unstructure (gvals f) = gvals f.

Local Abbreviation FS := (attrs_attrs cls).
Local Abbreviation GS := (generation_fields cls).
Local Abbreviation G := (entries gvals (generation_fields cls)).
Local Abbreviation FS1 := (fields_but_generation_config cls).
Local Abbreviation U := (dumped cls gvals vals).
Local Abbreviation FS2 := (keyword_fields cls gvals vals).

Lemma wf_parts :
  str_in "generation_config" (List.map fst FS) = true
  /\ forallb (fun f => str_in f (accepted_keys cls)) (List.map fst FS) = true
  /\ forallb
       (fun f => negb (reserved f) && negb (String.eqb "__sdserver_extras__" f))
       (List.map fst FS) = true.
Proof.
  unfold well_formed in Hwf. cbv zeta in Hwf.
  apply andb_true_iff in Hwf as [H123 _].
  apply andb_true_iff in H123 as [H12 H3].
  apply andb_true_iff in H12 as [H1 H2].
  repeat split; assumption.
Qed.

Lemma wf_generation_config : str_in "generation_config" (List.map fst FS) = true.
Proof. apply wf_parts. Qed.

Lemma wf_accepted fd :
  In fd FS -> str_in (fst fd) (accepted_keys cls) = true.
Proof.
  intros Hfd. destruct wf_parts as (_ & H & _).
  rewrite forallb_forall in H. apply H, in_map, Hfd.
Qed.

Lemma wf_names fd :
  In fd FS ->
  reserved (fst fd) = false
  /\ String.eqb "__sdserver_extras__" (fst fd) = false.
Proof.
  intros Hfd. destruct wf_parts as (_ & _ & H).
  rewrite forallb_forall in H.
  specialize (H (fst fd) (in_map fst _ _ Hfd)).
  apply andb_true_iff in H as [H1 H2].
  split; [destruct (reserved (fst fd))|destruct (String.eqb _ (fst fd))];
    first [reflexivity|discriminate].
Qed.

Lemma nc_field fd :
  In fd FS -> str_in (fst fd) (List.map fst GS) = false.
Proof.
  intros Hfd. unfold no_collision in Hnc.
  rewrite forallb_forall in Hnc.
  specialize (Hnc (fst fd) (in_map fst _ _ Hfd)).
  destruct (str_in (fst fd) (List.map fst GS)); [discriminate|reflexivity].
Qed.

Lemma In_FS1 fd :
  In fd FS1 <-> In fd FS /\ fst fd <> "generation_config".
Proof.
  unfold fields_but_generation_config. rewrite filter_In.
  destruct (String.eqb_spec (fst fd) "generation_config"); cbn [negb];
    intuition congruence.
Qed.

Lemma dump_generation_object : unstructure (vals "generation_config") = VDict G.
Proof.
  rewrite Hgen. unfold generation_object. rewrite unstructure_entries_of.
  f_equal. unfold entries. rewrite List.map_map.
  apply List.map_ext_in. intros [f d] Hfd. cbn [fst snd].
  rewrite (Hgplain f d Hfd). reflexivity.
Qed.

Lemma getattribute_field fd :
  In fd FS ->
  __getattribute__ (instance_of cls extras vals) (fst fd) = Ok (vals (fst fd)).
Proof.
  intros Hfd. destruct (wf_names fd Hfd) as [Hres Hex].
  unfold __getattribute__, object_getattribute, instance_of.
  rewrite Hres. cbn [inst_attrs dict_get]. rewrite Hex.
  rewrite dict_get_entries, (In_fst_str_in fd FS Hfd). reflexivity.
Qed.

Lemma model_dump_entries :
  model_dump (instance_of cls extras vals) false = Ok (entries U FS).
Proof.
  unfold model_dump. cbn [inst_cls instance_of].
  rewrite (unstructure_fields_entries _ vals FS getattribute_field).
  cbn [bind]. f_equal. apply entries_ext. intros [f d] Hfd. cbn [fst].
  unfold dumped. destruct (String.eqb_spec f "generation_config") as [->|Hne].
  - apply dump_generation_object.
  - apply (Hplain f d Hfd Hne).
Qed.

Lemma no_extras_field :
  str_in "__sdserver_extras__" (List.map fst FS) = false.
Proof.
  apply str_in_false. intros Hin. apply in_map_iff in Hin as (fd & Hf & Hfd).
  destruct (wf_names fd Hfd) as [_ Hex]. rewrite Hf, String.eqb_refl in Hex.
  discriminate.
Qed.

Lemma structure_dump :
  structure_sd_config (VDict (entries U FS)) cls
  = call cls (("__sdserver_extras__", VDict []) :: entries U FS).
Proof.
  unfold structure_sd_config.
  assert (Hall : dict_filter (fun k _ => str_in k (accepted_keys cls))
                   (entries U FS) = entries U FS).
  { rewrite dict_filter_entries. f_equal. apply filter_all, wf_accepted. }
  rewrite Hall.
  assert (Hrest : dict_filter
                    (fun k _ => negb (str_in k (dict_keys (entries U FS))))
                    (entries U FS) = []).
  { rewrite dict_filter_entries, dict_keys_entries.
    rewrite filter_none; [reflexivity|].
    intros fd Hfd. rewrite (In_fst_str_in fd FS Hfd). reflexivity. }
  rewrite Hrest.
  unfold dict_has. rewrite dict_get_entries, no_extras_field. reflexivity.
Qed.

(** The keywords [__init__] receives besides the two named ones. *)
Lemma call_attrs :
  dict_del
    (dict_del (("__sdserver_extras__", VDict []) :: entries U FS)
       "generation_config") "__sdserver_extras__"
  = entries vals FS1.
Proof.
  cbn [dict_del].
  change (String.eqb "__sdserver_extras__" "generation_config") with false.
  cbn [dict_del]. rewrite String.eqb_refl.
  rewrite dict_del_entries. fold (fields_but_generation_config cls).
  rewrite dict_del_entries.
  rewrite filter_all.
  - apply entries_ext. intros fd Hfd. apply In_FS1 in Hfd as [_ Hne].
    unfold dumped. destruct (String.eqb_spec (fst fd) "generation_config");
      [contradiction|reflexivity].
  - intros fd Hfd. apply In_FS1 in Hfd as [Hfd _].
    destruct (wf_names fd Hfd) as [_ Hex].
    rewrite String.eqb_sym, Hex. reflexivity.
Qed.

Lemma init_generation_config_dump :
  init_generation_config cls (Some G) (entries vals FS1) = G.
Proof.
  unfold init_generation_config.
  rewrite dict_filter_entries, filter_none; [apply merge_dict_nil|].
  intros fd Hfd. apply In_FS1 in Hfd as [Hfd _]. apply nc_field, Hfd.
Qed.

Lemma init_attrs_1_dump : init_attrs_1 G (entries vals FS1) = entries vals FS2.
Proof.
  unfold init_attrs_1, keyword_fields.
  exact (dict_filter_entries
           (fun k v => negb (dict_has G k || is_None v)) vals FS1).
Qed.

Lemma In_FS2 fd : In fd FS2 -> In fd FS.
Proof.
  unfold keyword_fields. rewrite filter_In. intros [H _]. apply In_FS1 in H as [H _].
  exact H.
Qed.

Lemma init_extras_dump : init_extras cls (Some []) (entries vals FS2) = [].
Proof.
  unfold init_extras. cbn [first_not_none].
  rewrite dict_filter_entries, filter_none; [reflexivity|].
  intros fd Hfd. rewrite (wf_accepted fd (In_FS2 fd Hfd)). reflexivity.
Qed.

Lemma init_attrs_2_dump : init_attrs_2 [] (entries vals FS2) = entries vals FS2.
Proof.
  unfold init_attrs_2. rewrite dict_filter_entries, filter_all; [reflexivity|].
  intros fd _. reflexivity.
Qed.

Lemma getitem_generation_class ex :
  __getitem__ {| inst_cls := cls;
                 inst_attrs := [("__sdserver_extras__", VDict ex)] |}
    (VStr "generation_class")
  = Ok (VClass name).
Proof.
  unfold __getitem__.
  change (reserved "generation_class") with false. cbv iota.
  change (internal_attributes "generation_class")
    with "__sdserver_generation_class__".
  unfold hasattr, __getattribute__, object_getattribute.
  change (reserved "__sdserver_generation_class__") with false. cbv iota.
  cbn [inst_attrs inst_cls dict_get].
  change (String.eqb "__sdserver_extras__" "__sdserver_generation_class__")
    with false. cbv iota.
  rewrite Hclass. reflexivity.
Qed.

Lemma new_generation_config_dump :
  new_generation_config cls (VClass name) G = Ok (vals "generation_config").
Proof.
  unfold new_generation_config, attrs_init.
  rewrite dict_keys_entries, forallb_str_in_self.
  rewrite (bind_fields_entries gvals GS G).
  - cbn [bind]. rewrite Hgen. reflexivity.
  - intros fd Hfd.
    rewrite dict_get_entries, (In_fst_str_in fd GS Hfd). reflexivity.
Qed.

Lemma missing_keyword_is_None fd :
  In fd FS -> fst fd <> "generation_config" ->
  str_in (fst fd) (List.map fst FS2) = false ->
  vals (fst fd) = VNone.
Proof.
  intros Hfd Hne Hout.
  assert (H1 : In fd FS1) by (apply In_FS1; split; assumption).
  destruct (negb (dict_has G (fst fd) || is_None (vals (fst fd)))) eqn:E.
  - assert (H2 : In fd FS2)
      by (unfold keyword_fields; apply filter_In; split; assumption).
    rewrite (In_fst_str_in fd FS2 H2) in Hout. discriminate.
  - apply negb_false_iff, orb_true_iff in E as [E|E].
    + unfold dict_has in E.
      rewrite dict_get_entries, (nc_field fd Hfd) in E. discriminate.
    + destruct (vals (fst fd)); first [reflexivity|discriminate].
Qed.

Lemma attrs_init_dump :
  attrs_init FS (("generation_config", vals "generation_config")
                 :: entries vals FS2)
  = Ok (entries vals FS).
Proof.
  unfold attrs_init.
  assert (Hkeys :
    forallb (fun k => str_in k (List.map fst FS))
      (dict_keys (("generation_config", vals "generation_config")
                  :: entries vals FS2)) = true).
  { cbn [dict_keys List.map fst forallb]. rewrite wf_generation_config.
    cbn [andb]. fold (dict_keys (entries vals FS2)).
    rewrite dict_keys_entries. apply forallb_forall.
    intros k Hk. apply in_map_iff in Hk as (fd & <- & Hfd).
    apply In_fst_str_in, In_FS2, Hfd. }
  rewrite Hkeys. apply bind_fields_entries.
  intros [f d] Hfd. cbn [fst snd dict_get].
  destruct (String.eqb_spec "generation_config" f) as [<-|Hne];
    [reflexivity|].
  rewrite dict_get_entries.
  destruct (str_in f (List.map fst FS2)) eqn:E; [reflexivity|].
  assert (Hn : vals f = VNone).
  { apply (missing_keyword_is_None (f, d) Hfd); [|exact E].
    cbn [fst]. intros H. apply Hne. symmetry. exact H. }
  destruct (Hplain f d Hfd (fun H => Hne (eq_sym H))) as [_ Hd].
  rewrite (Hd Hn), Hn. reflexivity.
Qed.

Lemma init_dump :
  __init__ cls (Some G) (Some []) (entries vals FS1)
  = Ok (instance_of cls [] vals).
Proof.
  unfold __init__.
  rewrite init_generation_config_dump, init_attrs_1_dump, init_extras_dump,
    init_attrs_2_dump.
  rewrite getitem_generation_class. cbn [bind].
  rewrite new_generation_config_dump. cbn [bind].
  rewrite attrs_init_dump. reflexivity.
Qed.

Lemma call_dump :
  call cls (("__sdserver_extras__", VDict []) :: entries U FS)
  = Ok (instance_of cls [] vals).
Proof.
  unfold call. rewrite call_attrs.
  cbn [dict_get].
  change (String.eqb "__sdserver_extras__" "generation_config") with false.
  cbv iota. rewrite String.eqb_refl.
  rewrite dict_get_entries, wf_generation_config.
  unfold dumped at 1. rewrite String.eqb_refl.
  cbn [dict_or_None bind]. apply init_dump.
Qed.

(** C6, as the code has it.  For a subtype that declares all its fields
    itself, [generation_config] among them, and none under the name of a
    generation parameter, and for an instance whose field and generation
    values are plain data and whose fields are [None] only where [None] is
    the declared default, structuring the dump gives back every field,
    the generation parameters included; the extras mapping is not dumped
    and comes back empty. *)
Theorem roundtrip_amended :
  roundtrip (instance_of cls extras vals) = Ok (instance_of cls [] vals).
Proof.
  unfold roundtrip. rewrite model_dump_entries. cbn [bind inst_cls instance_of].
  rewrite structure_dump. apply call_dump.
Qed.

End RoundTrip.

Section RoundTripExamples.

Import Py SDConfig.

Lemma roundtrip_amended_witness :
  instance_of ModelAConfig [("foo", VStr "bar")] ModelA_vals = ModelA_instance
  /\ roundtrip (instance_of ModelAConfig [("foo", VStr "bar")] ModelA_vals)
     = Ok (instance_of ModelAConfig [] ModelA_vals).
Proof.
  split; [reflexivity|].
  apply (roundtrip_amended ModelAConfig [("foo", VStr "bar")]
           ModelA_vals ModelA_gvals "ModelAGenerationConfig").
  - reflexivity.
  - reflexivity.
  - reflexivity.
  - reflexivity.
  - intros f d [H|[H|[H|[]]]] Hne; injection H as <- <-.
    + contradiction.
    + split; [reflexivity|discriminate].
    + split; reflexivity.
  - intros f d [H|[H|[H|[]]]]; injection H as <- <-; reflexivity.
Defined.

(** C6 as stated fails.  The instance [ModelBConfig()] of a subtype with a
    field named like the generation parameter [top_k] comes back with that
    parameter overwritten by the field; and an instance whose field
    [batch_size] was set to [None] comes back with the declared default. *)
Lemma roundtrip_loses_values :
  call ModelBConfig [] = Ok ModelB_instance
  /\ dict_get (inst_attrs ModelB_instance) "generation_config"
     = Some (VObj "ModelAGenerationConfig"
               [("top_k", VInt 50); ("max_new_tokens", VInt 20);
                ("num_beams", VInt 1)])
  /\ (match roundtrip ModelB_instance with
      | Ok c => dict_get (inst_attrs c) "generation_config"
      | Raise _ => None
      end)
     = Some (VObj "ModelAGenerationConfig"
               [("top_k", VInt 7); ("max_new_tokens", VInt 20);
                ("num_beams", VInt 1)])
  /\ __setattr__ ModelA_instance "batch_size" VNone
     = Ok ModelA_instance_batch_None
  /\ dict_get (inst_attrs ModelA_instance_batch_None) "batch_size" = Some VNone
  /\ (match roundtrip ModelA_instance_batch_None with
      | Ok c => dict_get (inst_attrs c) "batch_size"
      | Raise _ => None
      end)
     = Some (VInt 1).
Proof. vm_compute. repeat split; reflexivity. Qed.

End RoundTripExamples.

(** * Further properties *)

(** ** The probes and [require_backends] *)

Section ProbeMore.

Import ImportUtils.

Lemma is_torch_available_true w g :
  snd (is_torch_available w g) = true ->
  is_torch_available w g = (g, true)
  /\ torch_flags_ok g = true
  /\ _torch_available g = true
  /\ metadata_version_ok w "torch" = true.
Proof.
  unfold is_torch_available, torch_flags_ok. cbn [snd].
  destruct (_ && _); [|discriminate].
  destruct (_torch_available g) eqn:Eg.
  - destruct (metadata_version_ok w "torch"); [|discriminate].
    rewrite Eg. intros _. repeat split; reflexivity.
  - rewrite Eg. discriminate.
Qed.

Lemma is_torch_available_value w g :
  snd (is_torch_available w g)
  = torch_flags_ok g && _torch_available g && metadata_version_ok w "torch".
Proof.
  unfold is_torch_available, torch_flags_ok. cbn [snd].
  destruct (_ && _); [|reflexivity].
  destruct (_torch_available g) eqn:Eg; [|exact Eg].
  destruct (metadata_version_ok w "torch"); [exact Eg|reflexivity].
Qed.

Lemma is_torch_available_next w g :
  torch_flags_ok (fst (is_torch_available w g)) = torch_flags_ok g
  /\ _torch_available (fst (is_torch_available w g))
     = snd (is_torch_available w g).
Proof.
  split; [|reflexivity].
  unfold torch_flags_ok.
  destruct (is_torch_available_flags w g) as [-> ->]. reflexivity.
Qed.

(** The answers of a run of calls in closed form: the i-th call says yes
    exactly when the flags read at import allow PyTorch, the cached flag
    was true at the start, and the metadata resolved at that call and at
    every call before it. *)
Theorem probe_calls_closed_form (ws : list World) (g : Globals) (i : nat)
  (r : bool) :
  probe_calls ws g !! i = Some r ->
  r = torch_flags_ok g && _torch_available g
      && forallb (fun w => metadata_version_ok w "torch") (take (S i) ws).
Proof.
  revert g i. induction ws as [|w ws IH]; intros g i; [discriminate|].
  cbn [probe_calls].
  destruct (is_torch_available w g) as [g' r0] eqn:E.
  assert (Hr0 : r0 = snd (is_torch_available w g)) by (rewrite E; reflexivity).
  assert (Hg' : g' = fst (is_torch_available w g)) by (rewrite E; reflexivity).
  destruct i as [|i]; cbn.
  - intros [= <-]. rewrite Hr0, is_torch_available_value.
    rewrite andb_true_r. reflexivity.
  - intros Hi. apply IH in Hi. rewrite Hi, Hg'.
    destruct (is_torch_available_next w g) as [-> ->].
    rewrite is_torch_available_value.
    destruct (torch_flags_ok g), (_torch_available g),
      (metadata_version_ok w "torch"); reflexivity.
Qed.

Lemma probe_calls_closed_form_witness :
  true = torch_flags_ok (import_module world_flags_cleared)
         && _torch_available (import_module world_flags_cleared)
         && forallb (fun w => metadata_version_ok w "torch")
              (take 2 [world_flags_cleared; world_use_tf; world_no_backend]).
Proof.
  apply (probe_calls_closed_form
           [world_flags_cleared; world_use_tf; world_no_backend]
           (import_module world_flags_cleared) 1 true).
  vm_compute. reflexivity.
Defined.

Lemma failed_checks_no_torch w name backend rest g :
  backend <> "torch" ->
  failed_checks w name (backend :: rest) g = (g, Raise (KeyError backend)).
Proof.
  intros Hne. cbn [failed_checks BACKENDS_MAPPING mapping_get].
  destruct (String.eqb_spec "torch" backend) as [<-|_]; [contradiction|].
  reflexivity.
Qed.

Lemma failed_checks_torch_available w name g :
  is_torch_available w g = (g, true) ->
  forall backends,
    failed_checks w name backends g
    = (g, match List.find (fun b => negb (String.eqb "torch" b)) backends with
          | Some b => Raise (KeyError b)
          | None => Ok []
          end).
Proof.
  intros Hav. induction backends as [|b rest IH]; [reflexivity|].
  cbn [failed_checks BACKENDS_MAPPING mapping_get List.find].
  destruct (String.eqb "torch" b); cbn [negb]; [|reflexivity].
  rewrite Hav, IH.
  destruct (List.find _ rest); reflexivity.
Qed.

Lemma find_not_torch backends b :
  List.find (fun b => negb (String.eqb "torch" b)) backends = Some b ->
  b ∈ backends /\ b <> "torch".
Proof.
  intros H. apply find_some in H as [Hin Hb]. split.
  - apply list_elem_of_In, Hin.
  - intros ->. discriminate Hb.
Qed.

Lemma find_not_torch_None backends :
  List.find (fun b => negb (String.eqb "torch" b)) backends = None ->
  Forall (fun b => b = "torch") backends.
Proof.
  intros H. apply List.Forall_forall. intros b Hb.
  pose proof (find_none _ _ H b Hb) as Hn. cbv beta in Hn.
  apply negb_false_iff, String.eqb_eq in Hn. symmetry. exact Hn.
Qed.

Lemma require_backends_cases (w : World) (name : string)
  (backends : list string) (g : Globals) :
  match snd (require_backends w name backends g) with
  | Ok _ =>
      Forall (fun b => b = "torch") backends
      /\ ("torch" ∈ backends -> snd (is_torch_available w g) = true)
  | Raise (ImportError msgs) =>
      msgs = [format PYTORCH_IMPORT_ERROR_WITH_TF name]
      /\ "torch" ∈ backends
      /\ snd (is_torch_available w g) = false
  | Raise (KeyError b) =>
      b ∈ backends /\ b <> "torch"
      /\ ("torch" ∈ backends -> snd (is_torch_available w g) = true)
  end.
Proof.
  unfold require_backends.
  destruct (bool_decide ("torch" ∈ backends)) eqn:Ein.
  - apply bool_decide_eq_true in Ein.
    destruct (is_torch_available w g) as [g' ok] eqn:Eav.
    destruct ok; cbn [negb snd].
    + assert (Htrue : snd (is_torch_available w g) = true)
        by (rewrite Eav; reflexivity).
      destruct (is_torch_available_true w g Htrue) as (Hsame & _).
      rewrite Eav in Hsame. injection Hsame as ->.
      rewrite (failed_checks_torch_available w name g Eav backends).
      destruct (List.find _ backends) as [b|] eqn:Ef; cbn [snd].
      * destruct (find_not_torch _ _ Ef). repeat split; auto.
      * split; [apply find_not_torch_None, Ef|auto].
    + repeat split; auto.
  - apply bool_decide_eq_false in Ein.
    destruct backends as [|b rest]; cbn [snd].
    + split; [constructor|]. intros H. contradiction.
    + assert (Hb : b <> "torch").
      { intros ->. apply Ein. left. }
      rewrite (failed_checks_no_torch w name b rest g Hb). cbn [snd].
      repeat split; [left|exact Hb|]. intros H. contradiction.
Qed.




Lemma is_flax_available_value w g :
  snd (is_flax_available w g)
  = flax_flags_ok g && _flax_available g
    && (metadata_version_ok w "jax" && metadata_version_ok w "flax").
Proof.
  unfold is_flax_available, flax_flags_ok. cbn [snd].
  destruct (bool_decide _); [|reflexivity].
  destruct (_flax_available g) eqn:Eg; [|exact Eg].
  destruct (_ && _); [exact Eg|reflexivity].
Qed.

Lemma is_flax_available_next w g :
  flax_flags_ok (fst (is_flax_available w g)) = flax_flags_ok g
  /\ _flax_available (fst (is_flax_available w g))
     = snd (is_flax_available w g).
Proof.
  split; [|reflexivity].
  unfold is_flax_available, flax_flags_ok. cbn [fst].
  destruct g as [tf torch jax force ta tfa fa ea ca ba].
  cbn [USE_JAX _flax_available set_flax_available].
  destruct (bool_decide (jax ∈ _)) eqn:E, fa,
    (metadata_version_ok w "jax" && metadata_version_ok w "flax");
    cbn [USE_JAX set_flax_available]; rewrite ?E; reflexivity.
Qed.

(** The flax probe in closed form: the i-th call of a run says yes exactly
    when USE_FLAX as read at import allows it, the cached flag was true at
    the start, and the metadata of both jax and flax resolved at that call
    and at every call before it; so one failed lookup, of either package,
    turns every later answer to no. *)
Theorem flax_calls_closed_form (ws : list World) (g : Globals) (i : nat)
  (r : bool) :
  flax_calls ws g !! i = Some r ->
  r = flax_flags_ok g && _flax_available g
      && forallb (fun w => metadata_version_ok w "jax"
                           && metadata_version_ok w "flax") (take (S i) ws).
Proof.
  revert g i. induction ws as [|w ws IH]; intros g i; [discriminate|].
  cbn [flax_calls].
  destruct (is_flax_available w g) as [g' r0] eqn:E.
  assert (Hr0 : r0 = snd (is_flax_available w g)) by (rewrite E; reflexivity).
  assert (Hg' : g' = fst (is_flax_available w g)) by (rewrite E; reflexivity).
  destruct i as [|i]; cbn.
  - intros [= <-]. rewrite Hr0, is_flax_available_value.
    rewrite andb_true_r. reflexivity.
  - intros Hi. apply IH in Hi. rewrite Hi, Hg'.
    destruct (is_flax_available_next w g) as [-> ->].
    rewrite is_flax_available_value.
    destruct (flax_flags_ok g), (_flax_available g),
      (metadata_version_ok w "jax"), (metadata_version_ok w "flax");
      reflexivity.
Qed.

Lemma flax_calls_closed_form_witness :
  false = flax_flags_ok (import_module world_jax_only)
          && _flax_available (import_module world_jax_only)
          && forallb (fun w => metadata_version_ok w "jax"
                               && metadata_version_ok w "flax")
               (take 1 [world_jax_only]).
Proof.
  apply (flax_calls_closed_form [world_jax_only]
           (import_module world_jax_only) 0 false).
  vm_compute. reflexivity.
Defined.

(** The two probes do not disturb each other: a call of one leaves the
    answer of the other as it was. *)
Theorem probes_independent (w w' : World) (g : Globals) :
  is_torch_available w (fst (is_flax_available w' g))
  = (fst (is_flax_available w' (fst (is_torch_available w g))),
     snd (is_torch_available w g))
  /\ snd (is_flax_available w' (fst (is_torch_available w g)))
     = snd (is_flax_available w' g).
Proof.
  unfold is_torch_available, is_flax_available. cbn [fst snd].
  destruct g as [tf torch jax force ta tfa fa ea ca ba].
  cbn [USE_TF USE_TORCH USE_JAX _torch_available _flax_available
       set_torch_available set_flax_available].
  destruct (bool_decide (torch ∈ _) && _) eqn:Et,
    (bool_decide (jax ∈ _)) eqn:Ej, ta, fa,
    (metadata_version_ok w "torch"),
    (metadata_version_ok w' "jax" && metadata_version_ok w' "flax");
    cbn [USE_TF USE_TORCH USE_JAX _torch_available _flax_available
         set_torch_available set_flax_available];
    rewrite ?Et, ?Ej;
    cbn [USE_TF USE_TORCH USE_JAX _torch_available _flax_available
         set_torch_available set_flax_available];
    split; reflexivity.
Qed.



End ProbeMore.

(** ** Environment keys and names *)

Section NamesMore.

Import PyStr EnvKey Py Settings.

Lemma upper_char_idem c : upper_char (upper_char c) = upper_char c.
Proof. destruct c as [[] [] [] [] [] [] [] []]; vm_compute; reflexivity. Qed.

Lemma upper_char_underscore c :
  Ascii.eqb (upper_char c) "_" = Ascii.eqb c "_".
Proof. destruct c as [[] [] [] [] [] [] [] []]; vm_compute; reflexivity. Qed.

Lemma upper_idem s : upper (upper s) = upper s.
Proof.
  induction s as [|c s IH]; [reflexivity|].
  cbn [upper]. rewrite upper_char_idem, IH. reflexivity.
Qed.

Lemma truthy_upper' x : truthy (upper x) = truthy x.
Proof. destruct x; reflexivity. Qed.

Lemma lstrip_upper s : lstrip "_" (upper s) = upper (lstrip "_" s).
Proof.
  induction s as [|c s IH]; [reflexivity|].
  cbn [upper lstrip]. rewrite upper_char_underscore.
  destruct (Ascii.eqb c "_"); [exact IH|reflexivity].
Qed.

Lemma rstrip_upper s : rstrip "_" (upper s) = upper (rstrip "_" s).
Proof.
  induction s as [|c s IH]; [reflexivity|].
  cbn [upper rstrip]. rewrite upper_char_underscore, IH, truthy_upper'.
  destruct (Ascii.eqb c "_" && negb (truthy (rstrip "_" s))); reflexivity.
Qed.

Lemma suffix_segment_upper s :
  upper (suffix_segment (option_map upper s)) = upper (suffix_segment s).
Proof.
  destruct s as [s|]; [|reflexivity]. cbn [option_map suffix_segment].
  rewrite truthy_upper'. destruct (truthy s); [|reflexivity].
  unfold strip. rewrite lstrip_upper, rstrip_upper. apply upper_idem.
Qed.

Lemma rstrip_app_ch ch s : rstrip ch (s +:+ String ch EmptyString) = rstrip ch s.
Proof.
  induction s as [|c s IH].
  - simpl. rewrite Ascii.eqb_refl. reflexivity.
  - simpl. rewrite IH. reflexivity.
Qed.

Lemma strip_app_ch ch s :
  strip ch (s +:+ String ch EmptyString) = strip ch s.
Proof.
  unfold strip. induction s as [|c s IH].
  - simpl. rewrite Ascii.eqb_refl. reflexivity.
  - change (String c s +:+ String ch EmptyString)
      with (String c (s +:+ String ch EmptyString)).
    cbn [lstrip]. destruct (Ascii.eqb c ch); [exact IH|].
    apply (rstrip_app_ch ch (String c s)).
Qed.

Lemma suffix_segment_leading s :
  suffix_segment (Some ("_" +:+ s)) = suffix_segment (Some s).
Proof.
  cbn. unfold strip. destruct s; reflexivity.
Qed.

Lemma suffix_segment_trailing s :
  suffix_segment (Some (s +:+ "_")) = suffix_segment (Some s).
Proof.
  cbn [suffix_segment].
  assert (Ht : truthy (s +:+ "_") = true) by (destruct s; reflexivity).
  rewrite Ht, (strip_app_ch "_" s).
  destruct s; reflexivity.
Qed.

Lemma upper_lower_char c : upper_char (lower_char c) = upper_char c.
Proof. destruct c as [[] [] [] [] [] [] [] []]; vm_compute; reflexivity. Qed.

Lemma lower_char_underscore c :
  Ascii.eqb (lower_char c) "_" = Ascii.eqb c "_".
Proof. destruct c as [[] [] [] [] [] [] [] []]; vm_compute; reflexivity. Qed.

Lemma upper_lower s : upper (lower s) = upper s.
Proof.
  induction s as [|c s IH]; [reflexivity|].
  cbn [upper lower]. rewrite upper_lower_char, IH. reflexivity.
Qed.

Lemma truthy_lower x : truthy (lower x) = truthy x.
Proof. destruct x; reflexivity. Qed.

Lemma lstrip_lower s : lstrip "_" (lower s) = lower (lstrip "_" s).
Proof.
  induction s as [|c s IH]; [reflexivity|].
  cbn [lower lstrip]. rewrite lower_char_underscore.
  destruct (Ascii.eqb c "_"); [exact IH|reflexivity].
Qed.

Lemma rstrip_lower s : rstrip "_" (lower s) = lower (rstrip "_" s).
Proof.
  induction s as [|c s IH]; [reflexivity|].
  cbn [lower rstrip]. rewrite lower_char_underscore, IH, truthy_lower.
  destruct (Ascii.eqb c "_" && negb (truthy (rstrip "_" s))); reflexivity.
Qed.

Lemma suffix_segment_lower s :
  upper (suffix_segment (option_map lower s)) = upper (suffix_segment s).
Proof.
  destruct s as [s|]; [|reflexivity]. cbn [option_map suffix_segment].
  rewrite truthy_lower. destruct (truthy s); [|reflexivity].
  unfold strip. rewrite lstrip_lower, rstrip_lower. apply upper_lower.
Qed.

Lemma field_env_key_ext m k s m' k' s' :
  upper m = upper m' -> upper k = upper k' ->
  upper (suffix_segment s) = upper (suffix_segment s') ->
  _field_env_key m k s = _field_env_key m' k' s'.
Proof.
  intros Hm Hk Hs. unfold _field_env_key. cbn [List.map].
  rewrite Hm, Hk, Hs. reflexivity.
Qed.

(** For ASCII arguments the key does not see their case, nor an underscore
    put before or after the suffix: names that differ only in case have
    the same variable. *)
Theorem field_env_key_insensitive (m k : string) (s : option string) :
  ascii_only m = true -> ascii_only k = true ->
  ascii_only (suffix_text s) = true ->
  _field_env_key (upper m) (upper k) (option_map upper s) = _field_env_key m k s
  /\ _field_env_key (lower m) (lower k) (option_map lower s)
     = _field_env_key m k s
  /\ (forall x, ascii_only x = true ->
        _field_env_key m k (Some ("_" +:+ x)) = _field_env_key m k (Some x))
  /\ (forall x, ascii_only x = true ->
        _field_env_key m k (Some (x +:+ "_")) = _field_env_key m k (Some x)).
Proof.
  intros _ _ _. split; [|split; [|split]].
  - apply field_env_key_ext;
      [apply upper_idem|apply upper_idem|apply suffix_segment_upper].
  - apply field_env_key_ext;
      [apply upper_lower|apply upper_lower|apply suffix_segment_lower].
  - intros x _. apply field_env_key_ext; try reflexivity.
    rewrite suffix_segment_leading. reflexivity.
  - intros x _. apply field_env_key_ext; try reflexivity.
    rewrite suffix_segment_trailing. reflexivity.
Qed.

Lemma field_env_key_insensitive_witness :
  _field_env_key "FLAN_T5" "TEMPERATURE" (Some "GENERATION")
  = _field_env_key "Flan_T5" "Temperature" (Some "Generation")
  /\ _field_env_key "flan_t5" "temperature" (Some "generation")
     = _field_env_key "Flan_T5" "Temperature" (Some "Generation")
  /\ _field_env_key "Flan_T5" "Temperature" (Some "_Generation")
     = _field_env_key "Flan_T5" "Temperature" (Some "Generation")
  /\ _field_env_key "Flan_T5" "Temperature" (Some "Generation_")
     = _field_env_key "Flan_T5" "Temperature" (Some "Generation").
Proof.
  destruct (field_env_key_insensitive "Flan_T5" "Temperature"
              (Some "Generation") eq_refl eq_refl eq_refl)
    as (Hu & Hl & Hlead & Htrail).
  refine (conj Hu (conj Hl (conj _ _))).
  - exact (Hlead "Generation" eq_refl).
  - exact (Htrail "Generation" eq_refl).
Defined.

(** *** Names in snake case *)

Lemma lower_char_not_upper c : is_upper (lower_char c) = false.
Proof. destruct c as [[] [] [] [] [] [] [] []]; vm_compute; reflexivity. Qed.

Lemma lower_char_dash c : Ascii.eqb (lower_char c) "-" = Ascii.eqb c "-".
Proof. destruct c as [[] [] [] [] [] [] [] []]; vm_compute; reflexivity. Qed.

Lemma lower_char_fixed c : is_upper c = false -> lower_char c = c.
Proof. unfold lower_char. intros ->. reflexivity. Qed.

Lemma none_of_cons p c s :
  none_of p (String c s) = true <-> p c = false /\ none_of p s = true.
Proof.
  cbn [none_of]. rewrite andb_true_iff, negb_true_iff. reflexivity.
Qed.

Lemma underscore_snake word : snake (underscore word) = true.
Proof.
  unfold snake, underscore.
  generalize (underscore_words (underscore_acronyms word)). intros s.
  apply andb_true_iff. split.
  - generalize (replace_char "-" "_" s). clear s. intros s.
    induction s as [|c s IH]; [reflexivity|].
    cbn [lower none_of]. rewrite lower_char_not_upper, IH. reflexivity.
  - induction s as [|c s IH]; [reflexivity|].
    cbn [replace_char lower none_of]. rewrite lower_char_dash, IH.
    destruct (Ascii.eqb_spec c "-") as [->|Hne]; [reflexivity|].
    apply Ascii.eqb_neq in Hne. rewrite Hne. reflexivity.
Qed.

Lemma underscore_acronyms_fixed s :
  none_of is_upper s = true -> underscore_acronyms s = s.
Proof.
  induction s as [|c1 s IH]; [reflexivity|].
  intros H. apply none_of_cons in H as [Hc Hs].
  cbn [underscore_acronyms]. rewrite Hc, (IH Hs). cbn [andb].
  destruct s as [|c2 [|c3 s]]; reflexivity.
Qed.

Lemma underscore_words_fixed s :
  none_of is_upper s = true -> underscore_words s = s.
Proof.
  induction s as [|c1 s IH]; [reflexivity|].
  intros H. apply none_of_cons in H as [Hc Hs].
  cbn [underscore_words]. rewrite (IH Hs).
  destruct s as [|c2 s]; [reflexivity|].
  apply none_of_cons in Hs as [Hc2 _]. rewrite Hc2, andb_false_r.
  reflexivity.
Qed.

Lemma lower_fixed s : none_of is_upper s = true -> lower s = s.
Proof.
  induction s as [|c s IH]; [reflexivity|].
  intros H. apply none_of_cons in H as [Hc Hs].
  cbn [lower]. rewrite (lower_char_fixed c Hc), (IH Hs). reflexivity.
Qed.

Lemma replace_dash_fixed s :
  none_of (fun c => Ascii.eqb c "-") s = true -> replace_char "-" "_" s = s.
Proof.
  induction s as [|c s IH]; [reflexivity|].
  intros H. apply none_of_cons in H as [Hc Hs].
  cbn [replace_char]. rewrite Hc, (IH Hs). reflexivity.
Qed.

Lemma underscore_fixed s : snake s = true -> underscore s = s.
Proof.
  unfold snake, underscore. intros H. apply andb_true_iff in H as [Hu Hd].
  rewrite (underscore_acronyms_fixed s Hu), (underscore_words_fixed s Hu),
    (replace_dash_fixed s Hd). apply lower_fixed, Hu.
Qed.

Lemma dasherize_no_upper s :
  none_of is_upper s = true -> none_of is_upper (dasherize s) = true.
Proof.
  unfold dasherize. induction s as [|c s IH]; [reflexivity|].
  intros H. apply none_of_cons in H as [Hc Hs].
  cbn [replace_char none_of]. rewrite (IH Hs).
  destruct (Ascii.eqb c "_"); [reflexivity|]. rewrite Hc. reflexivity.
Qed.

Lemma dasherize_no_underscore s :
  none_of (fun c => Ascii.eqb c "_") (dasherize s) = true.
Proof.
  unfold dasherize. induction s as [|c s IH]; [reflexivity|].
  cbn [replace_char none_of]. rewrite IH.
  destruct (Ascii.eqb c "_") eqn:E; [reflexivity|]. rewrite E. reflexivity.
Qed.

Lemma replace_back s :
  none_of (fun c => Ascii.eqb c "-") s = true ->
  replace_char "-" "_" (dasherize s) = s.
Proof.
  unfold dasherize. induction s as [|c s IH]; [reflexivity|].
  intros H. apply none_of_cons in H as [Hc Hs].
  cbn [replace_char]. rewrite (IH Hs).
  destruct (Ascii.eqb_spec c "_") as [->|Hne]; [reflexivity|].
  rewrite Hc. reflexivity.
Qed.

Lemma underscore_dasherize s : snake s = true -> underscore (dasherize s) = s.
Proof.
  unfold snake. intros H. apply andb_true_iff in H as [Hu Hd].
  unfold underscore.
  rewrite (underscore_acronyms_fixed _ (dasherize_no_upper s Hu)),
    (underscore_words_fixed _ (dasherize_no_upper s Hu)),
    (replace_back s Hd).
  apply lower_fixed, Hu.
Qed.

Lemma ModelEnv_normalised environ name name' :
  underscore name' = underscore name ->
  ModelEnv environ name' = ModelEnv environ name.
Proof. intros H. unfold ModelEnv. rewrite H. reflexivity. Qed.



(** Under the dasherize convention the model name and the start name of a
    class with an ASCII name determine each other: the start name is the model name with
    dashes for underscores and holds no underscore, the model name is the
    snake-case form of the start name, and both give the same variable
    names.  Under the lowercase convention the two names are equal. *)
Theorem derived_names_round_trip (cl_name : string)
  (environ : gmap string string) :
  ascii_only cl_name = true ->
  let m := derived_model_name cl_name (VStr "dasherize") in
  let st := derived_start_name cl_name (VStr "dasherize") in
  snake m = true
  /\ none_of (fun c => Ascii.eqb c "_") st = true
  /\ st = dasherize m
  /\ underscore st = m
  /\ underscore m = m
  /\ ModelEnv environ st = ModelEnv environ m
  /\ derived_start_name cl_name (VStr "lowercase")
     = derived_model_name cl_name (VStr "lowercase").
Proof.
  intros _. cbv zeta. unfold derived_start_name, derived_model_name.
  cbn [is_dasherize]. change (String.eqb "dasherize" "dasherize") with true.
  change (String.eqb "lowercase" "dasherize") with false. cbv iota.
  set (m := underscore (remove_sub "Config" cl_name)).
  assert (Hm : snake m = true) by apply underscore_snake.
  repeat split.
  - exact Hm.
  - apply dasherize_no_underscore.
  - apply underscore_dasherize, Hm.
  - apply underscore_fixed, Hm.
  - apply (ModelEnv_normalised environ m (dasherize m)).
    rewrite (underscore_dasherize m Hm). symmetry.
    apply (underscore_fixed m), Hm.
Qed.

Lemma derived_names_round_trip_witness :
  derived_start_name "FlanT5Config" (VStr "dasherize") = "flan-t5"
  /\ underscore "flan-t5" = "flan_t5"
  /\ derived_model_name "FlanT5Config" (VStr "dasherize") = "flan_t5".
Proof.
  destruct (derived_names_round_trip "FlanT5Config" ∅ eq_refl)
    as (_ & _ & Hst & Hback & _).
  refine (conj Hst (conj Hback _)). reflexivity.
Defined.

End NamesMore.

(** ** Settings: the errors of a declaration *)

Section SettingsMore.

Import PyStr Py Settings.

Lemma dict_get_set d k v k' :
  dict_get (dict_set d k v) k'
  = if String.eqb k k' then Some v else dict_get d k'.
Proof.
  induction d as [|[k0 v0] d IH]; cbn [dict_set dict_get].
  - reflexivity.
  - destruct (String.eqb_spec k0 k) as [->|Hne]; cbn [dict_get].
    + destruct (String.eqb k k'); reflexivity.
    + rewrite IH. destruct (String.eqb_spec k0 k') as [->|Hne'].
      * destruct (String.eqb_spec k k'); [congruence|reflexivity].
      * reflexivity.
Qed.

Lemma field_default_known (fields : list (string * option Value)) k :
  str_in k (List.map fst fields) = true ->
  exists d, SDConfig.field_default fields k = Some d /\ In (k, d) fields.
Proof.
  induction fields as [|[f d] fields IH]; [discriminate|].
  unfold str_in. cbn [List.map fst existsb SDConfig.field_default].
  rewrite (String.eqb_sym k f).
  destruct (String.eqb_spec f k) as [->|Hne].
  - intros _. exists d. split; [reflexivity|left; reflexivity].
  - cbn [orb]. intros H. destruct (IH H) as (d' & Hd & Hin).
    exists d'. split; [exact Hd|right; exact Hin].
Qed.

(** No class statement is accepted, and the two runtime errors come
    first.  Whatever the environment, the declaration and the defaults of
    the settings attributes, [structure_settings] raises, and so does the
    start of [__init_subclass__]: a runtime error for what is no subtype or
    has no settings, even when the mapping holds the reserved key, the
    value error of the reserved key next, and for every other declaration
    the type error of [default()], whose keywords name three fields that
    [ModelSettings] does not have. *)
Theorem structure_settings_never_returns
  (Field_default : string -> option Value) (environ : gmap string string)
  (cl_ : ClassDecl) :
  structure_settings Field_default environ cl_
  = (if negb (cl_is_SDConfig cl_)
     then Raise (RuntimeError "must be a subclass type of 'LLMConfig'")
     else match cl_config cl_ with
          | None => Raise (RuntimeError "must have '__config__' that is not None")
          | Some config =>
              if dict_has config "generation_class"
              then Raise (ValueError GENERATION_CLASS_RESERVED)
              else Raise (TypeError "unexpected keyword argument")
          end)
  /\ is_Ok (init_subclass_settings Field_default environ cl_) = false
  /\ forall _cl_name s0 config,
       is_Ok (structure_settings_from Field_default environ _cl_name s0 config)
       = false.
Proof.
  split; [|split].
  - unfold structure_settings.
    destruct (negb (cl_is_SDConfig cl_)); [reflexivity|].
    destruct (cl_config cl_) as [config|]; [|reflexivity].
    destruct (dict_has config "generation_class"); reflexivity.
  - unfold init_subclass_settings.
    match goal with |- is_Ok (bind ?r _) = false =>
      pose proof (structure_settings_raises Field_default environ
                    (if endswith (cl_name cl_) "Config" then cl_
                     else {| cl_name := cl_name cl_ +:+ "Config";
                             cl_is_SDConfig := cl_is_SDConfig cl_;
                             cl_config := cl_config cl_ |})) as H;
      destruct r; [discriminate H|reflexivity]
    end.
  - intros. apply structure_settings_from_raises.
Qed.

End SettingsMore.

(** ** Merging *)

Section MergeMore.

Import Py.

Lemma dict_get_upsert_eq f d k v :
  dict_get (dict_upsert f d k v) k
  = Some (match dict_get d k with Some old => f old | None => v end).
Proof.
  induction d as [|[k0 v0] d IH]; cbn [dict_upsert dict_get].
  - rewrite String.eqb_refl. reflexivity.
  - destruct (String.eqb_spec k0 k) as [->|Hne]; cbn [dict_get].
    + rewrite String.eqb_refl. reflexivity.
    + destruct (String.eqb_spec k0 k); [contradiction|exact IH].
Qed.

Lemma unique_keys_cons k ks :
  unique_keys (k :: ks) = true -> str_in k ks = false /\ unique_keys ks = true.
Proof.
  cbn [unique_keys]. intros H. apply andb_true_iff in H as [H1 H2].
  split; [|exact H2]. destruct (str_in k ks); [discriminate|reflexivity].
Qed.

Lemma dict_get_merge_entries_in nxt : forall base k v,
  unique_keys (dict_keys nxt) = true ->
  dict_get nxt k = Some v ->
  dict_get (merge_entries nxt base) k
  = Some (match dict_get base k with Some old => merge old v | None => v end).
Proof.
  induction nxt as [|[k' v'] nxt IH]; intros base k v Hu Hk; [discriminate|].
  cbn [dict_keys List.map fst] in Hu.
  apply unique_keys_cons in Hu as [Hnot Hu].
  cbn [merge_entries]. cbn [dict_get] in Hk.
  destruct (String.eqb_spec k' k) as [->|Hne].
  - injection Hk as ->.
    rewrite dict_get_merge_entries.
    + apply dict_get_upsert_eq.
    + apply dict_get_None_notin. apply str_in_false. exact Hnot.
  - rewrite (IH _ k v Hu Hk).
    rewrite (dict_get_upsert_ne _ base k' v' k Hne). reflexivity.
Qed.

Lemma merge_entries_keeps_keys nxt : forall base k,
  dict_has base k = true -> dict_has (merge_entries nxt base) k = true.
Proof.
  induction nxt as [|[k' v'] nxt IH]; intros base k Hk; [exact Hk|].
  cbn [merge_entries]. apply IH. unfold dict_has in *.
  destruct (String.eqb_spec k' k) as [->|Hne].
  - rewrite dict_get_upsert_eq. reflexivity.
  - rewrite (dict_get_upsert_ne _ base k' v' k Hne). exact Hk.
Qed.

(** [config_merger] key by key.  A key of the new mapping ends up with the
    new value, merged into the old one when the key was there; every other
    key keeps its value, and no key of the base is lost.  Two values merge
    into the new one unless both are dictionaries, which merge entry by
    entry. *)
Theorem merge_by_key (base nxt : Dict) (k : string) :
  unique_keys (dict_keys nxt) = true ->
  dict_get (merge_dict base nxt) k
  = match dict_get nxt k with
    | Some v =>
        Some (match dict_get base k with Some old => merge old v | None => v end)
    | None => dict_get base k
    end
  /\ (dict_has base k = true -> dict_has (merge_dict base nxt) k = true)
  /\ (forall old v,
        (forall b, old <> VDict b) \/ (forall n, v <> VDict n) ->
        merge old v = v)
  /\ (forall b n, merge (VDict b) (VDict n) = VDict (merge_dict b n)).
Proof.
  intros Hu. rewrite merge_dict_entries. split; [|split; [|split]].
  - destruct (dict_get nxt k) as [v|] eqn:E.
    + apply dict_get_merge_entries_in; assumption.
    + apply dict_get_merge_entries, E.
  - apply merge_entries_keeps_keys.
  - intros old v [H|H].
    + destruct v; try reflexivity. destruct old; try reflexivity.
      exfalso. eapply H. reflexivity.
    + destruct v; try reflexivity. exfalso. eapply H. reflexivity.
  - intros b n. unfold merge_dict. cbn [merge]. reflexivity.
Qed.

Lemma merge_by_key_witness :
  dict_get
    (merge_dict [("a", VInt 1); ("b", VDict [("x", VInt 1)])]
       [("b", VDict [("y", VInt 2)]); ("a", VInt 3)]) "b"
  = Some (merge (VDict [("x", VInt 1)]) (VDict [("y", VInt 2)])).
Proof.
  apply (merge_by_key [("a", VInt 1); ("b", VDict [("x", VInt 1)])]
           [("b", VDict [("y", VInt 2)]); ("a", VInt 3)] "b").
  reflexivity.
Defined.

End MergeMore.

(** ** Instances: writing, constructing, looking up *)

Section InstanceMore.

Import PyStr Py SDConfig.

Lemma getitem_unfold self k :
  reserved k = false ->
  __getitem__ self (VStr k)
  = match attribute self (internal_attributes k) with
    | Some v => Ok v
    | None =>
        match attribute self k with
        | Some v => Ok v
        | None =>
            match attribute self "__sdserver_generation_class__" with
            | None => Raise (AttributeError "__sdserver_generation_class__")
            | Some _ =>
                if generation_class_hasattr (inst_cls self) k
                then match attribute self "generation_config" with
                     | Some g => generation_getattr (inst_cls self) g k
                     | None => Raise (AttributeError "generation_config")
                     end
                else match attribute self "__sdserver_extras__" with
                     | Some (VDict d) =>
                         match dict_get d k with
                         | Some v => Ok v
                         | None => Raise (KeyError k)
                         end
                     | Some _ => Raise (TypeError "argument is not iterable")
                     | None => Raise (AttributeError "__sdserver_extras__")
                     end
            end
        end
    end.
Proof.
  intros Hr. unfold __getitem__. rewrite Hr.
  rewrite (hasattr_attribute _ _ (internal_not_reserved k)).
  rewrite (getattribute_attribute _ _ (internal_not_reserved k)).
  destruct (attribute self (internal_attributes k)); [reflexivity|].
  cbn [bind].
  rewrite (hasattr_attribute _ _ Hr), (getattribute_attribute _ _ Hr).
  destruct (attribute self k); [reflexivity|]. cbn [bind].
  rewrite (getattribute_attribute self "__sdserver_generation_class__")
    by reflexivity.
  destruct (attribute self "__sdserver_generation_class__"); [|reflexivity].
  cbn [bind].
  destruct (generation_class_hasattr (inst_cls self) k).
  - rewrite (getattribute_attribute self "generation_config") by reflexivity.
    destruct (attribute self "generation_config"); reflexivity.
  - rewrite (getattribute_attribute self "__sdserver_extras__") by reflexivity.
    destruct (attribute self "__sdserver_extras__") as [[]|]; reflexivity.
Qed.

Lemma length_append s t :
  String.length (s +:+ t) = String.length s + String.length t.
Proof.
  induction s as [|c s IH]; [reflexivity|]. simpl. rewrite IH. reflexivity.
Qed.

Lemma internal_attributes_longer k : internal_attributes k <> k.
Proof.
  unfold internal_attributes. intros H.
  apply (f_equal String.length) in H.
  rewrite !length_append in H. cbn in H. lia.
Qed.



Lemma dict_get_filter_true p d k v :
  dict_get d k = Some v -> p k v = true ->
  dict_get (dict_filter p d) k = Some v.
Proof.
  induction d as [|[k0 v0] d IH]; [discriminate|].
  unfold dict_filter in *. cbn [dict_get List.filter fst snd].
  destruct (String.eqb_spec k0 k) as [->|Hne].
  - intros [= ->] Hp. rewrite Hp. cbn [dict_get].
    rewrite String.eqb_refl. reflexivity.
  - intros Hk Hp. destruct (p k0 v0); [|apply IH; assumption].
    cbn [dict_get]. destruct (String.eqb_spec k0 k); [contradiction|].
    apply IH; assumption.
Qed.

Lemma unique_keys_filter p d :
  unique_keys (dict_keys d) = true ->
  unique_keys (dict_keys (dict_filter p d)) = true.
Proof.
  unfold dict_keys, dict_filter.
  induction d as [|[k0 v0] d IH]; [reflexivity|].
  cbn [List.map fst]. intros H.
  apply unique_keys_cons in H as [Hnot Hu].
  cbn [List.filter fst snd].
  destruct (p k0 v0); [|apply IH, Hu].
  cbn [List.map fst unique_keys].
  rewrite (IH Hu), andb_true_r. apply negb_true_iff.
  apply str_in_false. intros Hin. apply str_in_false in Hnot. apply Hnot.
  apply in_map_iff in Hin as ([k1 v1] & Hk & Hin). cbn [fst] in Hk. subst k1.
  apply filter_In in Hin as [Hin _]. apply (in_map fst) in Hin. exact Hin.
Qed.

Lemma field_default_unknown (fields : list (string * option Value)) k :
  str_in k (List.map fst fields) = false -> field_default fields k = None.
Proof.
  induction fields as [|[f d] fields IH]; [reflexivity|].
  unfold str_in. cbn [List.map fst existsb field_default].
  rewrite (String.eqb_sym k f).
  destruct (String.eqb f k); [discriminate|exact IH].
Qed.

(** What a successful [__init__] has computed. *)
Lemma init_inversion cls gc ex attrs inst :
  __init__ cls gc ex attrs = Ok inst ->
  exists gname slots fields,
    bind_fields (generation_fields cls) (init_generation_config cls gc attrs)
    = Ok slots
    /\ bind_fields (attrs_attrs cls)
         (("generation_config", VObj gname slots)
          :: init_attrs_2
               (init_extras cls ex
                  (init_attrs_1 (init_generation_config cls gc attrs) attrs))
               (init_attrs_1 (init_generation_config cls gc attrs) attrs))
       = Ok fields
    /\ str_in "generation_config" (List.map fst (attrs_attrs cls)) = true
    /\ inst
       = {| inst_cls := cls;
            inst_attrs :=
              ("__sdserver_extras__",
               VDict (init_extras cls ex
                        (init_attrs_1 (init_generation_config cls gc attrs)
                           attrs)))
              :: fields |}.
Proof.
  unfold __init__.
  destruct (__getitem__ _ (VStr "generation_class")) as [gcl|]; [|discriminate].
  cbn [bind]. unfold new_generation_config.
  destruct gcl as [| | | | | | |gname]; try discriminate.
  unfold attrs_init at 1.
  destruct (forallb _ (dict_keys (init_generation_config cls gc attrs)));
    [|discriminate].
  destruct (bind_fields (generation_fields cls) _) as [slots|] eqn:Es;
    [|discriminate].
  cbn [bind]. unfold attrs_init.
  destruct (forallb _ _) eqn:Ef; [|discriminate].
  destruct (bind_fields (attrs_attrs cls) _) as [fields|] eqn:Efs;
    [|discriminate].
  cbn [bind]. intros [= <-].
  exists gname, slots, fields. repeat split; try assumption.
  cbn [dict_keys List.map fst forallb] in Ef.
  apply andb_true_iff in Ef as [Ef _]. exact Ef.
Qed.

Lemma init_generation_config_get cls gc attrs k :
  unique_keys (dict_keys attrs) = true ->
  (forall g, gc = Some g -> dict_get g k = None) ->
  dict_get (init_generation_config cls gc attrs) k
  = if str_in k (List.map fst (generation_fields cls))
    then dict_get attrs k else None.
Proof.
  intros Hu Hgc. unfold init_generation_config.
  set (named := dict_filter _ attrs).
  assert (Hnamed : dict_get named k
                   = if str_in k (List.map fst (generation_fields cls))
                     then dict_get attrs k else None).
  { unfold named.
    destruct (str_in k (List.map fst (generation_fields cls))) eqn:E.
    - destruct (dict_get attrs k) as [v|] eqn:Ek.
      + apply dict_get_filter_true; assumption.
      + apply dict_get_filter_None, Ek.
    - apply dict_get_filter_false. intros v _. exact E. }
  destruct gc as [g|]; [|exact Hnamed].
  rewrite merge_dict_entries.
  destruct (dict_get named k) as [v|] eqn:E.
  - rewrite (dict_get_merge_entries_in named g k v); [|apply unique_keys_filter, Hu|exact E].
    rewrite (Hgc g eq_refl). rewrite <- Hnamed. reflexivity.
  - rewrite dict_get_merge_entries by exact E.
    rewrite (Hgc g eq_refl). exact Hnamed.
Qed.

Section Routing.

Variables (cls : Subtype) (gc ex : option Dict) (attrs : Dict)
  (inst : Instance) (k : string) (v : Value).

Hypothesis Hinit : __init__ cls gc ex attrs = Ok inst.
Hypothesis Hu : unique_keys (dict_keys attrs) = true.
Hypothesis Hk : dict_get attrs k = Some v.
Hypothesis Hres : reserved k = false.
Hypothesis Hslot : k <> "__sdserver_extras__".
Hypothesis Hgc : forall g, gc = Some g -> dict_get g k = None.
Hypothesis Hint : attribute inst (internal_attributes k) = None.

Local Abbreviation G := (init_generation_config cls gc attrs).
Local Abbreviation A1 := (init_attrs_1 G attrs).
Local Abbreviation E := (init_extras cls ex A1).
Local Abbreviation A2 := (init_attrs_2 E A1).

Lemma routed_extras_get :
  dict_get E k
  = match dict_get (first_not_none ex []) k with
    | Some old =>
        if str_in k (accepted_keys cls) then Some old
        else match dict_get A1 k with
             | Some x => Some (merge old x)
             | None => Some old
             end
    | None => if str_in k (accepted_keys cls) then None else dict_get A1 k
    end.
Proof.
  unfold init_extras. rewrite merge_dict_entries.
  set (N := dict_filter (fun k _ => negb (str_in k (accepted_keys cls))) A1).
  assert (HuN : unique_keys (dict_keys N) = true).
  { unfold N, init_attrs_1. apply unique_keys_filter, unique_keys_filter, Hu. }
  assert (HN : dict_get N k
               = if str_in k (accepted_keys cls) then None else dict_get A1 k).
  { unfold N. destruct (str_in k (accepted_keys cls)) eqn:Ea.
    - apply dict_get_filter_false. intros x _. rewrite Ea. reflexivity.
    - destruct (dict_get A1 k) as [x|] eqn:E1.
      + apply dict_get_filter_true; [exact E1|]. rewrite Ea. reflexivity.
      + apply dict_get_filter_None, E1. }
  destruct (dict_get N k) as [x|] eqn:EN.
  - rewrite (dict_get_merge_entries_in N _ k x HuN EN).
    destruct (str_in k (accepted_keys cls)); [discriminate|].
    rewrite <- HN. destruct (dict_get (first_not_none ex []) k); reflexivity.
  - rewrite (dict_get_merge_entries N _ k EN).
    destruct (dict_get (first_not_none ex []) k);
      destruct (str_in k (accepted_keys cls)); try reflexivity;
      rewrite <- HN; reflexivity.
Qed.

(** A keyword that names a declared and accepted field, with a value other
    than [None]. *)
Lemma routed_to_field :
  str_in k (List.map fst (attrs_attrs cls)) = true ->
  str_in k (accepted_keys cls) = true ->
  str_in k (List.map fst (generation_fields cls)) = false ->
  dict_get (first_not_none ex []) k = None ->
  is_None v = false ->
  k <> "generation_config" ->
  __getitem__ inst (VStr k) = Ok v.
Proof.
  intros Hfield Hacc Hgen Hex Hv Hne.
  destruct (init_inversion _ _ _ _ _ Hinit)
    as (gname & slots & fields & _ & Hfields & _ & ->).
  assert (HG : dict_has G k = false).
  { unfold dict_has. rewrite (init_generation_config_get cls gc attrs k Hu Hgc).
    rewrite Hgen. reflexivity. }
  assert (H1 : dict_get A1 k = Some v).
  { unfold init_attrs_1. apply dict_get_filter_true; [exact Hk|].
    rewrite HG, Hv. reflexivity. }
  assert (HE : dict_has E k = false).
  { unfold dict_has. rewrite routed_extras_get, Hex, Hacc. reflexivity. }
  assert (H2 : dict_get A2 k = Some v).
  { unfold init_attrs_2. apply dict_get_filter_true; [exact H1|].
    rewrite HE. reflexivity. }
  destruct (field_default_known _ k Hfield) as (d & Hd & _).
  rewrite (getitem_unfold _ _ Hres), Hint.
  unfold attribute. cbn [inst_attrs dict_get].
  destruct (String.eqb_spec "__sdserver_extras__" k) as [<-|_];
    [contradiction|].
  rewrite (bind_fields_get _ _ _ k Hfields), Hd. cbn [dict_get].
  destruct (String.eqb_spec "generation_config" k) as [<-|_];
    [contradiction|].
  rewrite H2. reflexivity.
Qed.

(** A keyword that names a generation parameter, [None] included. *)
Lemma routed_to_generation :
  str_in k (List.map fst (generation_fields cls)) = true ->
  str_in k (List.map fst (attrs_attrs cls)) = false ->
  dict_get (class_attrs cls) k = None ->
  is_Some (attribute inst "__sdserver_generation_class__") ->
  __getitem__ inst (VStr k) = Ok v.
Proof.
  intros Hgen Hfield Hclass [c Hc].
  destruct (init_inversion _ _ _ _ _ Hinit)
    as (gname & slots & fields & Hslots & Hfields & Hgcf & ->).
  rewrite (getitem_unfold _ _ Hres), Hint, Hc.
  unfold attribute at 1. cbn [inst_attrs inst_cls dict_get].
  destruct (String.eqb_spec "__sdserver_extras__" k) as [<-|_];
    [contradiction|].
  rewrite (bind_fields_get _ _ _ k Hfields),
    (field_default_unknown _ k Hfield), Hclass.
  unfold generation_class_hasattr. cbn [inst_cls]. rewrite Hgen. cbn [orb].
  unfold attribute. cbn [inst_attrs dict_get].
  change (String.eqb "__sdserver_extras__" "generation_config") with false.
  cbv iota.
  destruct (field_default_known _ _ Hgcf) as (d & Hd & _).
  rewrite (bind_fields_get _ _ _ "generation_config" Hfields), Hd.
  cbn [dict_get]. rewrite String.eqb_refl.
  unfold generation_getattr.
  destruct (field_default_known _ k Hgen) as (dg & Hdg & _).
  rewrite (bind_fields_get _ _ _ k Hslots), Hdg.
  rewrite (init_generation_config_get cls gc attrs k Hu Hgc), Hgen, Hk.
  reflexivity.
Qed.

(** A keyword that no store before the extras mapping knows, with a value
    other than [None]. *)
Lemma routed_to_extras :
  str_in k (accepted_keys cls) = false ->
  str_in k (List.map fst (attrs_attrs cls)) = false ->
  generation_class_hasattr cls k = false ->
  dict_get (class_attrs cls) k = None ->
  dict_get (first_not_none ex []) k = None ->
  is_None v = false ->
  is_Some (attribute inst "__sdserver_generation_class__") ->
  __getitem__ inst (VStr k) = Ok v.
Proof.
  intros Hacc Hfield Hghas Hclass Hex Hv [c Hc].
  assert (Hgen : str_in k (List.map fst (generation_fields cls)) = false).
  { unfold generation_class_hasattr in Hghas.
    apply orb_false_iff in Hghas as [H _]. exact H. }
  assert (HG : dict_has G k = false).
  { unfold dict_has. rewrite (init_generation_config_get cls gc attrs k Hu Hgc).
    rewrite Hgen. reflexivity. }
  assert (H1 : dict_get A1 k = Some v).
  { unfold init_attrs_1. apply dict_get_filter_true; [exact Hk|].
    rewrite HG, Hv. reflexivity. }
  assert (HE : dict_get E k = Some v).
  { rewrite routed_extras_get, Hex, Hacc. exact H1. }
  destruct (init_inversion _ _ _ _ _ Hinit)
    as (gname & slots & fields & _ & Hfields & _ & ->).
  rewrite (getitem_unfold _ _ Hres), Hint, Hc.
  unfold attribute at 1. cbn [inst_attrs inst_cls dict_get].
  destruct (String.eqb_spec "__sdserver_extras__" k) as [<-|_];
    [contradiction|].
  rewrite (bind_fields_get _ _ _ k Hfields),
    (field_default_unknown _ k Hfield), Hclass.
  cbn [inst_cls]. rewrite Hghas.
  unfold attribute. cbn [inst_attrs dict_get]. rewrite String.eqb_refl.
  rewrite HE. reflexivity.
Qed.

End Routing.



End InstanceMore.

(** ** Structuring a mapping *)

Section StructureMore.

Import PyStr Py SDConfig.

Lemma dict_filter_nil p (d : Dict) :
  (forall k v, In (k, v) d -> p k v = false) -> dict_filter p d = [].
Proof.
  unfold dict_filter. induction d as [|[k v] d IH]; intros H; [reflexivity|].
  cbn [List.filter fst snd]. rewrite (H k v (or_introl eq_refl)).
  apply IH. intros k' v' Hin. apply H. right. exact Hin.
Qed.

Lemma dict_filter_In p (d : Dict) k v :
  In (k, v) (dict_filter p d) -> In (k, v) d /\ p k v = true.
Proof. unfold dict_filter. intros H. apply filter_In in H. exact H. Qed.

Lemma dict_del_In (d : Dict) k0 k v :
  In (k, v) (dict_del d k0) -> In (k, v) d /\ k <> k0.
Proof.
  induction d as [|[k' v'] d IH]; [intros []|].
  cbn [dict_del]. destruct (String.eqb_spec k' k0) as [->|Hne].
  - intros H. destruct (IH H). split; [right|]; assumption.
  - intros [[= -> ->]|H].
    + split; [left; reflexivity|exact Hne].
    + destruct (IH H). split; [right|]; assumption.
Qed.

(** The keys of [data] that the class does not accept are those that are
    not among the accepted keys of [data]. *)
Lemma structure_extras_filter accepted (data : Dict) :
  dict_filter
    (fun k _ =>
       negb (str_in k (dict_keys (dict_filter (fun k _ => str_in k accepted)
                                    data))))
    data
  = dict_filter (fun k _ => negb (str_in k accepted)) data.
Proof.
  unfold dict_filter at 1 3. apply List.filter_ext_in.
  intros [k v] Hin. cbn [fst snd]. f_equal.
  destruct (str_in k accepted) eqn:Ea.
  - apply str_in_In. unfold dict_keys.
    apply (in_map fst (dict_filter (fun k _ => str_in k accepted) data) (k, v)).
    unfold dict_filter. apply filter_In. split; [exact Hin|exact Ea].
  - apply str_in_false. unfold dict_keys. intros H.
    apply in_map_iff in H as ([k' v'] & Hk & H). cbn [fst] in Hk. subst k'.
    apply dict_filter_In in H as [_ H]. congruence.
Qed.

(** The extras that [__init__] computes when every keyword is an accepted
    key: the mapping handed over, unchanged. *)
Lemma init_extras_accepted cls gc (extras attrs : Dict) :
  (forall k v, In (k, v) attrs -> str_in k (accepted_keys cls) = true) ->
  init_extras cls (Some extras)
    (init_attrs_1 (init_generation_config cls gc attrs) attrs)
  = extras.
Proof.
  intros Hacc. unfold init_extras. cbn [first_not_none].
  rewrite dict_filter_nil; [apply merge_dict_nil|].
  intros k v Hin. unfold init_attrs_1 in Hin.
  apply dict_filter_In in Hin as [Hin _].
  rewrite (Hacc k v Hin). reflexivity.
Qed.

Lemma structure_inversion cls (data : Dict) inst :
  structure_sd_config (VDict data) cls = Ok inst ->
  exists fields,
    inst
    = {| inst_cls := cls;
         inst_attrs :=
           ("__sdserver_extras__",
            VDict (dict_filter (fun k _ => negb (str_in k (accepted_keys cls)))
                     data))
           :: fields |}
    /\ forall k,
         str_in k (List.map fst (attrs_attrs cls)) = false ->
         dict_get fields k = None.
Proof.
  unfold structure_sd_config. rewrite structure_extras_filter.
  set (cls_attrs := dict_filter (fun k _ => str_in k (accepted_keys cls)) data).
  set (extras := dict_filter (fun k _ => negb (str_in k (accepted_keys cls)))
                   data).
  destruct (dict_has cls_attrs "__sdserver_extras__"); [discriminate|].
  unfold call. cbn [dict_get].
  change (String.eqb "__sdserver_extras__" "generation_config") with false.
  cbv iota. rewrite String.eqb_refl.
  destruct (dict_or_None (dict_get cls_attrs "generation_config")) as [g|e];
    [|discriminate].
  cbn [bind dict_or_None]. intros Hinit.
  destruct (init_inversion _ _ _ _ _ Hinit)
    as (gname & slots & fields & _ & Hfields & _ & ->).
  exists fields. split.
  - f_equal. f_equal. f_equal. f_equal. apply init_extras_accepted.
    intros k v Hin.
    apply dict_del_In in Hin as [Hin Hne].
    apply dict_del_In in Hin as [Hin _].
    destruct Hin as [[= <- _]|Hin]; [contradiction|].
    apply dict_filter_In in Hin as [_ H]. exact H.
  - intros k Hk.
    rewrite (bind_fields_get _ _ _ k Hfields), (field_default_unknown _ k Hk).
    reflexivity.
Qed.



End StructureMore.

(** ** Dumping *)

Section DumpMore.

Import PyStr Py SDConfig.

Lemma dict_get_del (d : Dict) k0 k :
  dict_get (dict_del d k0) k
  = if String.eqb k0 k then None else dict_get d k.
Proof.
  induction d as [|[k' v'] d IH]; cbn [dict_del dict_get].
  - destruct (String.eqb k0 k); reflexivity.
  - destruct (String.eqb_spec k' k0) as [->|Hne].
    + rewrite IH. destruct (String.eqb k0 k); reflexivity.
    + cbn [dict_get]. rewrite IH.
      destruct (String.eqb_spec k' k) as [->|Hne'].
      * destruct (String.eqb_spec k0 k); [congruence|reflexivity].
      * reflexivity.
Qed.

Lemma dict_get_update (new : Dict) : forall (d : Dict) k,
  unique_keys (dict_keys new) = true ->
  dict_get (dict_update d new) k
  = match dict_get new k with
    | Some v => Some v
    | None => dict_get d k
    end.
Proof.
  induction new as [|[k0 v0] new IH]; intros d k Hu; [reflexivity|].
  cbn [dict_keys List.map fst unique_keys] in Hu.
  apply andb_true_iff in Hu as [Hk0 Hu]. apply negb_true_iff in Hk0.
  cbn [dict_update dict_get]. rewrite (IH _ k Hu), dict_get_set.
  destruct (String.eqb_spec k0 k) as [->|Hne]; [|reflexivity].
  apply str_in_false in Hk0.
  apply (proj2 (dict_get_None_notin new k)) in Hk0. rewrite Hk0.
  reflexivity.
Qed.



End DumpMore.
